(** * The stat-test registry and the trigger-word feature of evidently

    A shallow embedding of
    - [src/evidently/analyzers/stattests/registry.py]: the registry of
      statistical tests and the resolution of a test selector, and
    - [src/evidently/features/trigger_words_present_feature.py]: the
      feature that flags the presence of a trigger word in a text cell.

    Python values are modelled by the data the code observes: a [dict] is an
    insertion-ordered association list (the error messages print
    [list(d.keys())], so the order of the keys is visible), a raised
    exception is the [Raise] case of [Result], and the two module-level
    dictionaries of the registry are an explicit state [Registry] that
    [register_stattest] transforms and [get_stattest] reads. *)

From stdpp Require Import base list gmap strings.
From Stdlib Require Import ZArith Qcanon String Ascii.

Close Scope Qc_scope.
Open Scope string_scope.

#[local] Set Warnings "-clear-no-such-hyp".

(** ** Exceptions and results *)

(** The exceptions the two files can raise. [StatTestNotFoundError] and
    [StatTestInvalidFeatureTypeError] are the two subclasses of
    [ValueError] that registry.py declares; they carry the values their
    [__init__] formats into the message.  [AttributeError] and [TypeError]
    come from the interpreter ([stattest_func.__name__] on an object without
    that attribute; a dictionary look-up with a key that cannot be hashed,
    [re.sub] on an object that is not a string) and
    [KeyError] from indexing a frame with a missing column label. *)
Inductive Exception : Type :=
  | ValueError (msg : string)
  | StatTestNotFoundError (stattest_name : string) (available : list string)
  | StatTestInvalidFeatureTypeError
      (stattest_name feature_type : string) (available : list string)
  | AttributeError (attr : string)
  | TypeError
  | KeyError (key : string).

Inductive Result (A : Type) : Type :=
  | Return (a : A)
  | Raise (e : Exception).

Arguments Return {A} a.
Arguments Raise {A} e.

#[global] Instance Result_ret : MRet Result := fun A a => Return a.

#[global] Instance Result_bind : MBind Result := fun A B k r =>
  match r with
  | Return a => k a
  | Raise e => Raise e
  end.

(** [Series.apply(f)]: [f] on every element in order; the first exception
    ends the traversal. *)
Fixpoint series_apply {A B : Type} (f : A -> Result B) (l : list A) : Result (list B) :=
  match l with
  | [] => Return []
  | x :: l' => y ← f x; ys ← series_apply f l'; Return (y :: ys)
  end.

(** ** Python dictionaries

    Keys are kept in insertion order; assigning to a key that is present
    replaces its value in place. *)
Module PyDict.
Section dict.
Context {K V : Type} `{EqDecision K}.

Definition t : Type := list (K * V).

Definition empty : t := [].

(** [d.get(k)] *)
Fixpoint get (k : K) (d : t) : option V :=
  match d with
  | [] => None
  | (k', v) :: d' => if decide (k = k') then Some v else get k d'
  end.

(** [d[k] = v] *)
Fixpoint setitem (k : K) (v : V) (d : t) : t :=
  match d with
  | [] => [(k, v)]
  | (k', v') :: d' =>
      if decide (k = k') then (k', v) :: d' else (k', v') :: setitem k v d'
  end.

(** [list(d.keys())] *)
Definition keys (d : t) : list K := d.*1.

(** [{k: f(k) for k in ks}] *)
Definition comprehension (ks : list K) (f : K -> V) : t :=
  foldl (fun d k => setitem k (f k) d) empty ks.
End dict.
Arguments t : clear implicits.
End PyDict.

(** ** registry.py *)

(** A callable that can be hashed, passed as a statistical test or held as
    a key of the reverse dictionary.  [func_id] is the identity of the
    object, which is what hashing and equality of the keys observe.  A
    callable that cannot be hashed is never a key: line 28 raises on it,
    and as a selector it is the case [SelUnhashable].  [__name__] is the
    attribute read at line 51: functions and lambdas have it, a
    [functools.partial] object or an instance of a class with [__call__]
    does not. *)
Record Callable : Type := {
  func_id : positive;
  __name__ : option string
}.

#[global] Instance Callable_eq_dec : EqDecision Callable.
Proof. solve_decision. Defined.

(** The dataclass [StatTest]. *)
Record StatTest : Type := {
  name : string;
  display_name : string;
  func : Callable;
  allowed_feature_types : list string
}.

#[global] Instance StatTest_eq_dec : EqDecision StatTest.
Proof. solve_decision. Defined.

(** An element of a column, as the [set] of line 35 sees it.  [set] merges
    two elements when they are the same object or compare equal: strings
    compare by their text; numbers (int, float and bool alike) by their
    value, here a rational; each infinity and [None] with themselves.  A NaN
    compares unequal to everything, itself included, so it is merged only
    with the very same object: [obj] is the identity of the NaN object.
    Iterating a float column makes a new object for every element, so every
    NaN of such a column has an [obj] of its own; an object column may hold
    the same NaN object several times. *)
Inductive Label : Type :=
  | LStr (s : string)
  | LNum (q : Qc)
  | LInf (negative : bool)
  | LNone
  | LNaN (obj : positive).

#[global] Instance Label_eq_dec : EqDecision Label.
Proof. solve_decision. Defined.

#[global] Instance Label_countable : Countable Label.
Proof.
  refine (inj_countable'
    (fun l => match l with
              | LStr s => inl s
              | LNum q => inr (inl q)
              | LInf b => inr (inr (inl b))
              | LNone => inr (inr (inr (inl ())))
              | LNaN o => inr (inr (inr (inr o)))
              end)
    (fun x => match x with
              | inl s => LStr s
              | inr (inl q) => LNum q
              | inr (inr (inl b)) => LInf b
              | inr (inr (inr (inl _))) => LNone
              | inr (inr (inr (inr o))) => LNaN o
              end) _).
  intros []; reflexivity.
Defined.

(** The values of a column, in order. *)
Definition Series : Type := list Label.

(** The argument [stattest_func : Optional[PossibleStatTestType]], by the
    run-time type the chain of [isinstance]/[callable] tests sees.
    [SelCallable] is a callable that can be hashed, [SelUnhashable] a
    callable that cannot (an instance of a class with [__call__] that
    defines [__eq__] and no [__hash__]).  [SelOther] is any object that is
    neither [None], a [StatTest], a callable nor a [str]; it carries
    [str(type(stattest_func))]. *)
Inductive Selector : Type :=
  | SelNone
  | SelStatTest (t : StatTest)
  | SelCallable (f : Callable)
  | SelUnhashable
  | SelStr (s : string)
  | SelOther (type_repr : string).

(** The module [evidently.analyzers.stattests], of which registry.py reads
    three attributes; the module itself is not part of the sources. *)
Record StattestsModule : Type := {
  ks_stat_test : StatTest;
  chi_stat_test : StatTest;
  z_stat_test : StatTest
}.

(** The two module-level dictionaries (lines 22-23). *)
Record Registry : Type := {
  _registered_stat_tests : PyDict.t string (PyDict.t string StatTest);
  _registered_stat_test_funcs : PyDict.t Callable string
}.

(** The state when the module has just been imported. *)
Definition initial_registry : Registry :=
  {| _registered_stat_tests := PyDict.empty;
     _registered_stat_test_funcs := PyDict.empty |}.

(** Lines 26-28. *)
Definition register_stattest (stat_test : StatTest) (g : Registry) : Registry :=
  {| _registered_stat_tests :=
       PyDict.setitem (name stat_test)
         (PyDict.comprehension (allowed_feature_types stat_test)
            (fun ft => stat_test))
         (_registered_stat_tests g);
     _registered_stat_test_funcs :=
       PyDict.setitem (func stat_test) (name stat_test)
         (_registered_stat_test_funcs g) |}.

(** A run of registration calls, in order. *)
Definition register_all (tests : list StatTest) (g : Registry) : Registry :=
  foldl (fun g' t => register_stattest t g') g tests.

(** [set(reference_data) | set(current_data)] (line 35). *)
Definition labels (reference_data current_data : Series) : gset Label :=
  list_to_set reference_data ∪ list_to_set current_data.

(** Lines 31-37. *)
Definition _get_default_stattest (stattests : StattestsModule)
    (reference_data current_data : Series) (feature_type : string)
    : Result StatTest :=
  if decide (feature_type = "num") then Return (ks_stat_test stattests)
  else if decide (feature_type = "cat") then
    if decide (2 < size (labels reference_data current_data))
    then Return (chi_stat_test stattests)
    else Return (z_stat_test stattests)
  else Raise (ValueError ("Unexpected feature_type " +:+ feature_type)).

(** Lines 61-67, with the two exception constructors of lines 70-79: the
    look-up of a resolved name in the forward dictionary. *)
Definition lookup_stattest (g : Registry) (stattest_name feature_type : string)
    : Result StatTest :=
  match PyDict.get stattest_name (_registered_stat_tests g) with
  | None =>
      Raise (StatTestNotFoundError stattest_name
               (PyDict.keys (_registered_stat_tests g)))
  | Some funcs =>
      match PyDict.get feature_type funcs with
      | None =>
          Raise (StatTestInvalidFeatureTypeError stattest_name feature_type
                   (PyDict.keys funcs))
      | Some func => Return func
      end
  end.

(** Lines 40-67.  The test of line 48,
    [stattest_func not in _registered_stat_test_funcs], hashes the selector:
    on a callable that cannot be hashed it raises [TypeError]. *)
Definition get_stattest (stattests : StattestsModule) (g : Registry)
    (reference_data current_data : Series) (feature_type : string)
    (stattest_func : Selector) : Result StatTest :=
  match stattest_func with
  | SelNone =>
      _get_default_stattest stattests reference_data current_data feature_type
  | SelStatTest t => Return t
  | SelCallable f =>
      match PyDict.get f (_registered_stat_test_funcs g) with
      | None =>
          match __name__ f with
          | Some fname =>
              Return {| name := "";
                        display_name := "custom function '" +:+ fname +:+ "'";
                        func := f;
                        allowed_feature_types := [] |}
          | None => Raise (AttributeError "__name__")
          end
      | Some stattest_name => lookup_stattest g stattest_name feature_type
      end
  | SelUnhashable => Raise TypeError
  | SelStr s => lookup_stattest g s feature_type
  | SelOther type_repr =>
      Raise (ValueError ("Unexpected type of stattest argument (" +:+ type_repr
                         +:+ "), expected: str or Callable"))
  end.

(** The text of an exception of registry.py, [str(e)].  [repr_list] is
    Python's [repr] of a list of strings, which the f-strings of lines 72-73
    and 78-79 apply to the enumerated keys.  The text of an exception that
    the interpreter raises is not written in these files. *)
Definition message (repr_list : list string -> string) (e : Exception)
    : option string :=
  match e with
  | ValueError msg => Some msg
  | StatTestNotFoundError stattest_name available =>
      Some ("No stattest found of name " +:+ stattest_name +:+ ". "
            +:+ "Available stattests: " +:+ repr_list available)
  | StatTestInvalidFeatureTypeError stattest_name feature_type available =>
      Some ("Stattest " +:+ stattest_name
            +:+ " isn't applicable to feature of type " +:+ feature_type
            +:+ ". " +:+ "Available feature types: " +:+ repr_list available)
  | AttributeError _ | TypeError | KeyError _ => None
  end.

(** ** trigger_words_present_feature.py *)

(** A cell of a data frame.  A text column holds [str] objects; a missing
    value is [None] or, as pandas stores it when it reads a file, the float
    NaN; other columns hold numbers. *)
Inductive PyObject : Type :=
  | PyNone
  | PyStr (s : string)
  | PyInt (z : Z)
  | PyFloatNaN.

(** A data frame: column label to the values of the column, row by row.
    The row index, which [Series.apply] and the [DataFrame] constructor
    carry over unchanged, is left out. *)
Definition DataFrame : Type := PyDict.t string (list PyObject).

(** [nltk.stem.wordnet.WordNetLemmatizer], an object with the one method
    the feature calls; the library is not part of the sources. *)
Record WordNetLemmatizer : Type := {
  lemmatize : string -> string
}.

(** The attributes that [TriggerWordsPresent.__init__] sets (lines 13-17). *)
Record TriggerWordsPresent : Type := {
  lem : WordNetLemmatizer;
  column_name : string;
  words_list : list string;
  lemmatisize : bool
}.

(** Membership in the character class [A-Za-z0-9 ] of line 23. *)
Definition in_class (c : ascii) : bool :=
  let n := nat_of_ascii c in
  (((65 <=? n) && (n <=? 90)) || ((97 <=? n) && (n <=? 122))
   || ((48 <=? n) && (n <=? 57)) || (n =? 32))%nat.

(** [re.sub("[^A-Za-z0-9 ]+", "", s)]: every maximal run of characters
    outside the class is replaced by the empty string, which leaves the
    characters of the class, in order.  A character of a string is a code
    point below 256; the code points above are outside the class as well and
    are removed in the same way. *)
Fixpoint re_sub (s : string) : string :=
  match s with
  | EmptyString => EmptyString
  | String c s' => if in_class c then String c (re_sub s') else re_sub s'
  end.

(** The characters [str.split()] separates on, among the code points below
    256: tab to carriage return, the four separators 28-31, the space,
    NEL and the no-break space. *)
Definition isspace (c : ascii) : bool :=
  let n := nat_of_ascii c in
  (((9 <=? n) && (n <=? 13)) || ((28 <=? n) && (n <=? 32))
   || (n =? 133) || (n =? 160))%nat.

(** [s.split()]: the maximal runs of characters that are not white space;
    [word] is the run being read. *)
Fixpoint split_from (word : string) (s : string) : list string :=
  match s with
  | EmptyString => if decide (word = "") then [] else [word]
  | String c s' =>
      if isspace c
      then (if decide (word = "") then split_from "" s'
            else word :: split_from "" s')
      else split_from (word +:+ String c "") s'
  end.

Definition split (s : string) : list string := split_from "" s.

(** [str.lower()] on the characters the regular expression lets through:
    the letters A-Z move to a-z, digits and the space are unchanged. *)
Definition lower_char (c : ascii) : ascii :=
  let n := nat_of_ascii c in
  if ((65 <=? n) && (n <=? 90))%nat then ascii_of_nat (n + 32) else c.

Fixpoint lower (s : string) : string :=
  match s with
  | EmptyString => EmptyString
  | String c s' => String (lower_char c) (lower s')
  end.

(** Lines 25-27: the form of a token that is looked up. *)
Definition normalise (lem : WordNetLemmatizer) (lemmatisize : bool)
    (word_ : string) : string :=
  let word := lower word_ in
  if lemmatisize then lemmatize lem word else word.

(** The loop of lines 24-30: [return 1] at the first token whose form is in
    [words_list], [return 0] when the tokens are exhausted. *)
Fixpoint for_word_in (lem : WordNetLemmatizer) (words_list : list string)
    (lemmatisize : bool) (words : list string) : Z :=
  match words with
  | [] => 0
  | word_ :: words' =>
      if decide (normalise lem lemmatisize word_ ∈ words_list) then 1
      else for_word_in lem words_list lemmatisize words'
  end.

(** Lines 20-30.  [s is None] is the only test on the cell; any other
    object goes to [re.sub], which accepts a string and raises [TypeError]
    on a number. *)
Definition listed_words_present (lem : WordNetLemmatizer) (s : PyObject)
    (words_list : list string) (lemmatisize : bool) : Result Z :=
  match s with
  | PyNone => Return 0
  | PyStr s' =>
      let words := split (re_sub s') in
      Return (for_word_in lem words_list lemmatisize words)
  | PyInt _ | PyFloatNaN =>
      Raise TypeError
  end%Z.

(** Lines 19-47.  [data[self.column_name]] raises [KeyError] when the frame
    has no such column; the result is a frame built from a dictionary with
    the single key [self.column_name].  The argument [data_definition] is
    not read. *)
Definition generate_feature (self : TriggerWordsPresent) (data : DataFrame)
    : Result DataFrame :=
  match PyDict.get (column_name self) data with
  | None => Raise (KeyError (column_name self))
  | Some column =>
      feature ← series_apply
        (fun x =>
           z ← listed_words_present (lem self) x (words_list self)
                 (lemmatisize self);
           Return (PyInt z))
        column;
      Return (PyDict.setitem (column_name self) feature PyDict.empty)
  end.

(** ** Predicates of the statements *)


(** The entry of the forward dictionary for a name and a feature type:
    [_registered_stat_tests[n][ft]], when both keys are present. *)
Definition forward (g : Registry) (n ft : string) : option StatTest :=
  funcs ← PyDict.get n (_registered_stat_tests g); PyDict.get ft funcs.

(** The entry of the reverse dictionary for a function. *)
Definition reverse (g : Registry) (f : Callable) : option string :=
  PyDict.get f (_registered_stat_test_funcs g).

(** Every per-type dictionary of the forward dictionary was built by one
    registration: the one of a test of that name, whose allowed types are
    its keys and which is the value at each of them. *)
Definition forward_wf (g : Registry) : Prop :=
  ∀ n funcs, PyDict.get n (_registered_stat_tests g) = Some funcs →
    ∃ t, name t = n ∧
      ∀ ft, PyDict.get ft funcs
            = if decide (ft ∈ allowed_feature_types t) then Some t else None.

(** The selector resolves to the name [n]: it is the string [n], or a
    callable that the reverse dictionary maps to [n]. *)
Definition resolves_to (g : Registry) (stattest_func : Selector) (n : string) : Prop :=
  stattest_func = SelStr n
  ∨ ∃ f, stattest_func = SelCallable f ∧ reverse g f = Some n.

(** The result is a raised [StatTestNotFoundError]. *)
Definition is_not_found (r : Result StatTest) : Prop :=
  ∃ n available, r = Raise (StatTestNotFoundError n available).

(** The result is a raised [StatTestInvalidFeatureTypeError]. *)
Definition is_invalid_feature_type (r : Result StatTest) : Prop :=
  ∃ n ft available, r = Raise (StatTestInvalidFeatureTypeError n ft available).

(** Every test that the forward dictionary holds has its function mapped to
    its own name by the reverse dictionary. *)
Definition reverse_index_inv (g : Registry) : Prop :=
  ∀ n ft t, forward g n ft = Some t → reverse g (func t) = Some (name t).

(** No test that the forward dictionary holds under another name has the
    function of [stat_test]. *)
Definition func_unshared (g : Registry) (stat_test : StatTest) : Prop :=
  ∀ n ft t, forward g n ft = Some t →
    func t = func stat_test → name t = name stat_test.

(** In a list of tests, a function belongs to one name. *)
Definition func_names_agree (tests : list StatTest) : Prop :=
  ∀ t1 t2, t1 ∈ tests → t2 ∈ tests → func t1 = func t2 → name t1 = name t2.

(** The characters of the class, spelled out. *)
Definition alphabet : list ascii :=
  list_ascii_of_string
    "ABCDEFGHIJKLMNOPQRSTUVWXYZabcdefghijklmnopqrstuvwxyz0123456789 ".

(** A string without white space. *)
Fixpoint no_space (s : string) : Prop :=
  match s with
  | EmptyString => True
  | String c s' => isspace c = false ∧ no_space s'
  end.

(** A word of letters and digits. *)
Fixpoint alnum (s : string) : Prop :=
  match s with
  | EmptyString => True
  | String c s' => in_class c = true ∧ isspace c = false ∧ alnum s'
  end.

(** A cell of a text column that the computation accepts: [None] or a
    string. *)
Definition text_cell (x : PyObject) : Prop := x = PyNone ∨ ∃ s, x = PyStr s.

(** A string all of whose characters are in the class [A-Za-z0-9 ]. *)
Fixpoint class_string (s : string) : Prop :=
  match s with
  | EmptyString => True
  | String c s' => in_class c = true ∧ class_string s'
  end.

(** A lower-case letter or a digit. *)
Definition lower_alnum_char (c : ascii) : bool :=
  let n := nat_of_ascii c in
  (((97 <=? n) && (n <=? 122)) || ((48 <=? n) && (n <=? 57)))%nat.

Fixpoint lower_alnum_chars (s : string) : bool :=
  match s with
  | EmptyString => true
  | String c s' => lower_alnum_char c && lower_alnum_chars s'
  end.

(** A non-empty word of lower-case letters and digits. *)
Definition lower_alnum (s : string) : bool :=
  match s with
  | EmptyString => false
  | String _ _ => lower_alnum_chars s
  end.

(** ** The constructors of trigger_words_present_feature.py *)

(** [TriggerWordsPresent.__init__] (lines 13-17).  An argument that the
    caller leaves out is [None] here and takes the default of the
    signature: the empty tuple for [words_list], [True] for [lemmatisize].
    [new_lem] is the object that [WordNetLemmatizer()] returns. *)
Definition TriggerWordsPresent_init (new_lem : WordNetLemmatizer)
    (column_name : string) (words_list : option (list string))
    (lemmatisize : option bool) : TriggerWordsPresent :=
  {| lem := new_lem;
     column_name := column_name;
     words_list := default [] words_list;
     lemmatisize := default true lemmatisize |}.

(** The class [TriggerWordsPresentDesc] (lines 53-59); [for_column] calls
    [feature_name], whose [additional_feature] is not part of the
    sources. *)
Module TriggerWordsPresentDesc.
Record t : Type := {
  words_list : list string;
  lemmatisize : bool
}.

(** [__init__] (lines 54-56), with the same defaults. *)
Definition init (words_list : option (list string)) (lemmatisize : option bool)
    : t :=
  {| words_list := default [] words_list;
     lemmatisize := default true lemmatisize |}.

(** [feature] (lines 58-59). *)
Definition feature (new_lem : WordNetLemmatizer) (self : t)
    (column_name : string) : TriggerWordsPresent :=
  TriggerWordsPresent_init new_lem column_name (Some (words_list self))
    (Some (lemmatisize self)).
End TriggerWordsPresentDesc.

(** ** Values used in the examples *)

Definition f_ks : Callable := {| func_id := 1; __name__ := Some "_ks_stat_test" |}.
Definition f_chi : Callable := {| func_id := 2; __name__ := Some "_chi_stat_test" |}.
Definition f_z : Callable := {| func_id := 3; __name__ := Some "_z_stat_test" |}.

Definition builtin_stattests : StattestsModule :=
  {| ks_stat_test :=
       {| name := "ks"; display_name := "K-S p_value"; func := f_ks;
          allowed_feature_types := ["num"] |};
     chi_stat_test :=
       {| name := "chisquare"; display_name := "chi-square p_value";
          func := f_chi; allowed_feature_types := ["cat"] |};
     z_stat_test :=
       {| name := "z"; display_name := "Z-test p_value"; func := f_z;
          allowed_feature_types := ["cat"] |} |}.

(** The registry once the three tests above have been registered. *)
Definition builtin_registry : Registry :=
  register_all [ks_stat_test builtin_stattests;
                chi_stat_test builtin_stattests;
                z_stat_test builtin_stattests] initial_registry.

(** A user's function, and the same function with an argument bound by
    [functools.partial], an object that has no [__name__]. *)
Definition f_user : Callable := {| func_id := 10; __name__ := Some "my_test" |}.
Definition f_partial : Callable := {| func_id := 11; __name__ := None |}.

(** A lemmatizer for the examples: it knows one plural and one inflected
    verb form, and leaves every other word as it is. *)
Definition toy_lemmatizer : WordNetLemmatizer :=
  {| lemmatize := fun w =>
       if decide (w = "dogs") then "dog"
       else if decide (w = "running") then "run" else w |}.

(** A feature on the column "review", and two frames: one whose reviews are
    strings or [None], one with a review that is missing and stored as
    NaN. *)
Definition review_feature : TriggerWordsPresent :=
  {| lem := toy_lemmatizer; column_name := "review";
     words_list := ["run"]; lemmatisize := true |}.

Definition review_frame : DataFrame :=
  [("review", [PyStr "Running FAST!!"; PyNone; PyStr "walk"]);
   ("stars", [PyInt 5; PyInt 1; PyInt 3])].

Definition review_frame_nan : DataFrame :=
  [("review", [PyStr "I run"; PyFloatNaN]); ("stars", [PyInt 5; PyInt 1])].

(** [repr] of a list of plain words, for the examples. *)
Definition toy_repr_list (l : list string) : string :=
  "[" +:+ String.concat ", " (map (fun s => "'" +:+ s +:+ "'") l) +:+ "]".

(** Tests of a user: [t_ab] and [t_a'] have the name "a", [t_b] has the
    same function under the name "b", [t_none] allows no feature type. *)
Definition t_ab : StatTest :=
  {| name := "a"; display_name := "A"; func := f_user;
     allowed_feature_types := ["num"; "cat"] |}.

Definition t_a' : StatTest :=
  {| name := "a"; display_name := "A, numeric only"; func := f_user;
     allowed_feature_types := ["num"] |}.

Definition t_b : StatTest :=
  {| name := "b"; display_name := "B"; func := f_user;
     allowed_feature_types := ["num"] |}.

Definition t_none : StatTest :=
  {| name := "nothing"; display_name := "no type"; func := f_user;
     allowed_feature_types := [] |}.

(** A test that replaces [t_ab] under the name "a" with another function,
    and a test with a function and a name of its own. *)
Definition t_a2 : StatTest :=
  {| name := "a"; display_name := "A, second"; func := f_partial;
     allowed_feature_types := ["num"] |}.

Definition t_none2 : StatTest :=
  {| name := "nothing"; display_name := "no type"; func := f_partial;
     allowed_feature_types := [] |}.

(** * Properties *)

(** ** Dictionaries *)

Module PyDictFacts.
Section facts.
Context {K V : Type} `{EqDecision K}.
Implicit Types (d : PyDict.t K V) (k : K) (v : V).

Lemma get_setitem d k k' v :
  PyDict.get k' (PyDict.setitem k v d)
  = if decide (k' = k) then Some v else PyDict.get k' d.
Proof.
  induction d as [|[k0 v0] d IH]; simpl.
  - reflexivity.
  - destruct (decide (k = k0)) as [->|Hne]; simpl.
    + destruct (decide (k' = k0)); reflexivity.
    + rewrite IH.
      destruct (decide (k' = k0)) as [->|]; [|reflexivity].
      destruct (decide (k0 = k)); congruence.
Qed.

Lemma get_setitem_eq d k v : PyDict.get k (PyDict.setitem k v d) = Some v.
Proof. rewrite get_setitem. by rewrite decide_True. Qed.

Lemma get_setitem_ne d k k' v :
  k' ≠ k → PyDict.get k' (PyDict.setitem k v d) = PyDict.get k' d.
Proof. intros. rewrite get_setitem. by rewrite decide_False. Qed.

(** A key is in [d.keys()] exactly when [d.get] finds it. *)
Lemma elem_of_keys d k : k ∈ PyDict.keys d ↔ is_Some (PyDict.get k d).
Proof.
  unfold PyDict.keys. induction d as [|[k0 v0] d IH]; simpl.
  - rewrite elem_of_nil. split; [done | by intros [? ?]].
  - rewrite elem_of_cons, IH.
    destruct (decide (k = k0)) as [->|Hne].
    + split; [eauto | by left].
    + split; [by intros [?|?] | by right].
Qed.

Lemma get_None_keys d k : PyDict.get k d = None ↔ k ∉ PyDict.keys d.
Proof.
  rewrite elem_of_keys. destruct (PyDict.get k d) as [v|].
  - split; [discriminate|]. intros H. destruct H. by exists v.
  - split; [|reflexivity]. intros _ [v Hv]. discriminate Hv.
Qed.

Lemma get_foldl_setitem (f : K → V) ks d k :
  PyDict.get k (foldl (fun d k => PyDict.setitem k (f k) d) d ks)
  = if decide (k ∈ ks) then Some (f k) else PyDict.get k d.
Proof.
  revert d. induction ks as [|k0 ks IH]; intros d.
  - case_decide as Hin; [by apply elem_of_nil in Hin | done].
  - cbn [foldl]. rewrite IH, get_setitem.
    repeat case_decide; try done; set_solver.
Qed.

(** The dictionary [{k: f(k) for k in ks}] has exactly the keys [ks]. *)
Lemma get_comprehension (f : K → V) ks k :
  PyDict.get k (PyDict.comprehension ks f)
  = if decide (k ∈ ks) then Some (f k) else None.
Proof. unfold PyDict.comprehension. by rewrite get_foldl_setitem. Qed.
End facts.
End PyDictFacts.

(** ** The default selection *)


Lemma elem_of_labels reference_data current_data x :
  x ∈ labels reference_data current_data
  ↔ x ∈ reference_data ∨ x ∈ current_data.
Proof. unfold labels. set_solver. Qed.




(** ** The registry state *)

(** What one registration does to the two dictionaries, entry by entry. *)
Lemma forward_register_stattest stat_test g n ft :
  forward (register_stattest stat_test g) n ft
  = if decide (n = name stat_test)
    then (if decide (ft ∈ allowed_feature_types stat_test)
          then Some stat_test else None)
    else forward g n ft.
Proof.
  unfold forward, register_stattest; simpl.
  rewrite PyDictFacts.get_setitem.
  destruct (decide (n = name stat_test)); simpl; [|reflexivity].
  apply PyDictFacts.get_comprehension.
Qed.

Lemma reverse_register_stattest stat_test g f :
  reverse (register_stattest stat_test g) f
  = if decide (f = func stat_test) then Some (name stat_test) else reverse g f.
Proof. unfold reverse, register_stattest; simpl. apply PyDictFacts.get_setitem. Qed.

Lemma register_all_snoc tests stat_test g :
  register_all (tests ++ [stat_test]) g
  = register_stattest stat_test (register_all tests g).
Proof. unfold register_all. by rewrite foldl_snoc. Qed.

Lemma forward_wf_initial : forward_wf initial_registry.
Proof. intros n funcs H. discriminate H. Qed.

Lemma forward_wf_register_stattest stat_test g :
  forward_wf g → forward_wf (register_stattest stat_test g).
Proof.
  intros Hwf n funcs. unfold register_stattest; simpl.
  rewrite PyDictFacts.get_setitem.
  destruct (decide (n = name stat_test)) as [->|Hne].
  - intros [= <-]. exists stat_test. split; [reflexivity|].
    intros ft. apply PyDictFacts.get_comprehension.
  - apply Hwf.
Qed.

Lemma forward_wf_register_all tests g :
  forward_wf g → forward_wf (register_all tests g).
Proof.
  intros Hg. induction tests as [|t tests IH] using rev_ind; [exact Hg|].
  rewrite register_all_snoc. by apply forward_wf_register_stattest.
Qed.

(** In a well-formed forward dictionary a test found anywhere is found
    under its own name, at each of its allowed types. *)
Lemma forward_wf_lookup g n ft0 t ft :
  forward_wf g → forward g n ft0 = Some t →
  ft ∈ allowed_feature_types t →
  n = name t ∧ forward g (name t) ft = Some t.
Proof.
  unfold forward. intros Hwf Hfw Hft.
  destruct (PyDict.get n (_registered_stat_tests g)) as [funcs|] eqn:Hn;
    simpl in Hfw; [|discriminate].
  destruct (Hwf n funcs Hn) as (t0 & <- & Hfuncs).
  rewrite Hfuncs in Hfw. case_decide; [|discriminate].
  injection Hfw as ->. split; [reflexivity|].
  rewrite Hn; simpl. rewrite Hfuncs. by rewrite decide_True.
Qed.

(** Resolution of a name, in terms of [forward]. *)
Lemma lookup_stattest_forward g n ft t :
  forward g n ft = Some t → lookup_stattest g n ft = Return t.
Proof.
  unfold forward, lookup_stattest.
  destruct (PyDict.get n (_registered_stat_tests g)) as [funcs|]; simpl;
    [|discriminate].
  by intros ->.
Qed.

(** C2. After any run of registrations, a test [t] that the forward
    dictionary holds (so it has been registered, and no later registration
    under its name has replaced it) is what [get_stattest] returns for the
    selector [t.name] and each feature type in [t.allowed_feature_types]. *)
Theorem get_stattest_by_name stattests tests n ft0 t
    reference_data current_data ft :
  forward (register_all tests initial_registry) n ft0 = Some t →
  ft ∈ allowed_feature_types t →
  get_stattest stattests (register_all tests initial_registry)
    reference_data current_data ft (SelStr (name t)) = Return t.
Proof.
  intros Hfw Hft. simpl. apply lookup_stattest_forward.
  eapply forward_wf_lookup; eauto.
  apply forward_wf_register_all, forward_wf_initial.
Qed.

Lemma get_stattest_by_name_witness :
  get_stattest builtin_stattests builtin_registry [LStr "a"] [LStr "b"] "cat"
    (SelStr "z")
  = Return (z_stat_test builtin_stattests).
Proof.
  apply (get_stattest_by_name builtin_stattests
           [ks_stat_test builtin_stattests; chi_stat_test builtin_stattests;
            z_stat_test builtin_stattests]
           "z" "cat" (z_stat_test builtin_stattests) [LStr "a"] [LStr "b"]
           "cat").
  - reflexivity.
  - simpl. apply list_elem_of_here.
Defined.

(** ** Errors of the resolution *)

Lemma get_stattest_resolved stattests g reference_data current_data ft sel n :
  resolves_to g sel n →
  get_stattest stattests g reference_data current_data ft sel
  = lookup_stattest g n ft.
Proof.
  intros [->|(f & -> & Hf)]; simpl; [reflexivity|].
  unfold reverse in Hf. by rewrite Hf.
Qed.

(** C3. For a selector that resolves to a name [n]:
    - [get_stattest] raises [StatTestNotFoundError] exactly when [n] is not
      a key of the forward dictionary, and the exception then carries [n]
      and all the keys of the forward dictionary, which its message prints;
    - it raises [StatTestInvalidFeatureTypeError] exactly when [n] is a key
      and the feature type is not a key of the dictionary stored under [n],
      and the exception then carries the keys of that dictionary, which its
      message prints.
    A selector of any other type raises a [ValueError] whose message names
    the type. *)
Theorem get_stattest_errors stattests g reference_data current_data ft sel
    (repr_list : list string → string) :
  let r := get_stattest stattests g reference_data current_data ft sel in
  (∀ n, resolves_to g sel n →
     (is_not_found r ↔ PyDict.get n (_registered_stat_tests g) = None)
     ∧ (PyDict.get n (_registered_stat_tests g) = None →
        ∃ e, r = Raise e
          ∧ e = StatTestNotFoundError n (PyDict.keys (_registered_stat_tests g))
          ∧ message repr_list e
            = Some ("No stattest found of name " +:+ n
                    +:+ ". Available stattests: "
                    +:+ repr_list (PyDict.keys (_registered_stat_tests g))))
     ∧ (is_invalid_feature_type r
        ↔ ∃ funcs, PyDict.get n (_registered_stat_tests g) = Some funcs
                   ∧ PyDict.get ft funcs = None)
     ∧ (∀ funcs, PyDict.get n (_registered_stat_tests g) = Some funcs →
        PyDict.get ft funcs = None →
        ∃ e, r = Raise e
          ∧ e = StatTestInvalidFeatureTypeError n ft (PyDict.keys funcs)
          ∧ message repr_list e
            = Some ("Stattest " +:+ n
                    +:+ " isn't applicable to feature of type " +:+ ft
                    +:+ ". Available feature types: "
                    +:+ repr_list (PyDict.keys funcs))))
  ∧ (∀ type_repr, sel = SelOther type_repr →
     r = Raise (ValueError ("Unexpected type of stattest argument ("
                            +:+ type_repr +:+ "), expected: str or Callable"))).
Proof.
  intros r. split.
  - intros n Hres. subst r.
    rewrite (get_stattest_resolved _ _ _ _ _ _ _ Hres).
    unfold lookup_stattest, is_not_found, is_invalid_feature_type.
    destruct (PyDict.get n (_registered_stat_tests g)) as [funcs|] eqn:Hn.
    + destruct (PyDict.get ft funcs) as [t|] eqn:Hft.
      * repeat split; try discriminate.
        -- intros (? & ? & ?); discriminate.
        -- intros (? & ? & ? & ?); discriminate.
        -- intros (funcs' & [= <-] & Hnone). congruence.
        -- intros funcs' [= <-] Hnone. congruence.
      * repeat split; try discriminate.
        -- intros (? & ? & ?); discriminate.
        -- intros _. eauto.
        -- intros _. eauto.
        -- intros funcs' [= <-] _. eexists. split; [reflexivity|].
           split; [reflexivity|]. simpl.
           reflexivity.
    + repeat split; try discriminate.
      * intros _. eauto.
      * intros _. eexists. split; [reflexivity|]. split; [reflexivity|].
        simpl. reflexivity.
      * intros (? & ? & ? & ?); discriminate.
      * intros (? & ? & ?); discriminate.
  - intros type_repr ->. reflexivity.
Qed.

(** The two error cases of the specification on the registry of the three
    built-in tests: an unknown name, and "ks" asked for a type it is not
    registered for. *)
Lemma get_stattest_errors_witness :
  get_stattest builtin_stattests builtin_registry [] [] "num"
    (SelStr "nonexistent_name")
  = Raise (StatTestNotFoundError "nonexistent_name" ["ks"; "chisquare"; "z"])
  ∧ get_stattest builtin_stattests builtin_registry [] [] "other_type"
      (SelCallable f_ks)
    = Raise (StatTestInvalidFeatureTypeError "ks" "other_type" ["num"]).
Proof.
  split.
  - destruct (get_stattest_errors builtin_stattests builtin_registry [] []
                "num" (SelStr "nonexistent_name") toy_repr_list) as [Hname _].
    destruct (Hname "nonexistent_name") as (_ & Hnf & _).
    + left. reflexivity.
    + destruct Hnf as (e & -> & -> & _); reflexivity.
  - destruct (get_stattest_errors builtin_stattests builtin_registry [] []
                "other_type" (SelCallable f_ks) toy_repr_list) as [Hname _].
    destruct (Hname "ks") as (_ & _ & _ & Hift).
    + right. exists f_ks. split; reflexivity.
    + destruct (Hift [("num", ks_stat_test builtin_stattests)])
        as (e & -> & -> & _); reflexivity.
Defined.

(** ** Callables that are not registered *)

(** What lines 48-54 do for a function: a callable that can be hashed, that
    the reverse dictionary does not hold and that has a [__name__] is wrapped
    into a new [StatTest] with an empty name, the display name
    "custom function '<__name__>'", the callable itself and no allowed
    feature types, whatever the feature type and the contents of the forward
    dictionary. *)
Lemma get_stattest_unregistered_callable stattests g reference_data
    current_data feature_type f fname :
  reverse g f = None →
  __name__ f = Some fname →
  get_stattest stattests g reference_data current_data feature_type
    (SelCallable f)
  = Return {| name := "";
              display_name := "custom function '" +:+ fname +:+ "'";
              func := f;
              allowed_feature_types := [] |}.
Proof.
  unfold reverse. intros Hrev Hname. simpl. by rewrite Hrev, Hname.
Qed.

Lemma get_stattest_unregistered_callable_witness :
  get_stattest builtin_stattests builtin_registry [LStr "a"] [LStr "b"] "text"
    (SelCallable f_user)
  = Return {| name := "";
              display_name := "custom function 'my_test'";
              func := f_user;
              allowed_feature_types := [] |}.
Proof.
  apply (get_stattest_unregistered_callable builtin_stattests builtin_registry
           [LStr "a"] [LStr "b"] "text" f_user "my_test"); reflexivity.
Defined.

(** C4. The wrapping of an unregistered callable fails on two kinds of
    callables.  A callable without [__name__], such as a [functools.partial]
    object, passes [callable] and is not in the reverse dictionary; line 51
    then raises [AttributeError] where a [StatTest] should be returned.  A
    callable that cannot be hashed raises [TypeError] at line 48.  Both
    happen for every feature type and every registry. *)
Theorem get_stattest_partial_raises :
  reverse builtin_registry f_partial = None
  ∧ __name__ f_partial = None
  ∧ get_stattest builtin_stattests builtin_registry [LStr "a"] [LStr "b"] "num"
      (SelCallable f_partial)
    = Raise (AttributeError "__name__")
  ∧ (¬ ∃ t, get_stattest builtin_stattests builtin_registry
              [LStr "a"] [LStr "b"] "num" (SelCallable f_partial) = Return t)
  ∧ (∀ stattests g reference_data current_data feature_type f,
       reverse g f = None → __name__ f = None →
       get_stattest stattests g reference_data current_data feature_type
         (SelCallable f)
       = Raise (AttributeError "__name__"))
  ∧ (∀ stattests g reference_data current_data feature_type,
       get_stattest stattests g reference_data current_data feature_type
         SelUnhashable
       = Raise TypeError).
Proof.
  split; [reflexivity|]. split; [reflexivity|]. split; [reflexivity|].
  split; [intros [t Ht]; discriminate Ht|]. split.
  - intros stattests g reference_data current_data feature_type f Hrev Hname.
    unfold reverse in Hrev. simpl. by rewrite Hrev, Hname.
  - reflexivity.
Qed.

(** ** What a registration changes *)

(** Registering [t_a'] over [t_ab]: "cat" is not among the allowed types of
    [t_a'], the entry ("a", "cat") held [t_ab] before the call, and it is
    gone after it. *)
Lemma register_stattest_drops_entry :
  ("cat" ∉ allowed_feature_types t_a')
  ∧ forward (register_stattest t_ab initial_registry) (name t_a') "cat"
    = Some t_ab
  ∧ forward (register_stattest t_a' (register_stattest t_ab initial_registry))
      (name t_a') "cat"
    = None.
Proof.
  split; [|split; reflexivity].
  intros Hin. apply list_elem_of_singleton in Hin. discriminate Hin.
Qed.

(** C5, as the code has it.  [register_stattest] replaces the whole
    dictionary stored under the name of the test: after the call the entry
    for that name and a feature type is the test when the type is allowed
    and absent when it is not, so the entries of the same name for other
    types are removed; the entries under every other name are unchanged.  In
    the reverse dictionary only the entry of the test's function changes. *)
Theorem register_stattest_effect stat_test g :
  (∀ n ft,
     forward (register_stattest stat_test g) n ft
     = if decide (n = name stat_test)
       then (if decide (ft ∈ allowed_feature_types stat_test)
             then Some stat_test else None)
       else forward g n ft)
  ∧ (∀ f,
     reverse (register_stattest stat_test g) f
     = if decide (f = func stat_test) then Some (name stat_test)
       else reverse g f).
Proof.
  split.
  - intros n ft. apply forward_register_stattest.
  - intros f. apply reverse_register_stattest.
Qed.

(** ** The reverse index *)

(** Two tests with one function under two names: after both registrations
    the forward dictionary still holds [t_a'], and the reverse dictionary
    maps its function to "b", not to its name "a". *)
Lemma reverse_index_broken_by_shared_func :
  forward (register_all [t_a'; t_b] initial_registry) "a" "num" = Some t_a'
  ∧ reverse (register_all [t_a'; t_b] initial_registry) (func t_a') = Some "b"
  ∧ name t_a' = "a"
  ∧ reverse_index_inv (register_all [t_a'] initial_registry)
  ∧ ¬ reverse_index_inv (register_all [t_a'; t_b] initial_registry).
Proof.
  split; [reflexivity|]. split; [reflexivity|]. split; [reflexivity|]. split.
  - intros n ft t. change (register_all [t_a'] initial_registry)
      with (register_stattest t_a' initial_registry).
    rewrite forward_register_stattest, reverse_register_stattest.
    repeat case_decide; try discriminate.
    + by intros [= <-].
    + by intros [= <-].
  - intros Hinv. specialize (Hinv "a" "num" t_a' eq_refl). discriminate Hinv.
Qed.

Lemma reverse_index_inv_initial : reverse_index_inv initial_registry.
Proof. intros n ft t H. discriminate H. Qed.

Lemma reverse_index_inv_register_stattest stat_test g :
  reverse_index_inv g → func_unshared g stat_test →
  reverse_index_inv (register_stattest stat_test g).
Proof.
  intros Hinv Hun n ft t.
  rewrite forward_register_stattest, reverse_register_stattest.
  destruct (decide (n = name stat_test)) as [->|Hn].
  - case_decide; [|discriminate]. intros [= <-]. by rewrite decide_True.
  - intros Hfw. destruct (decide (func t = func stat_test)) as [Hf|Hf].
    + f_equal. symmetry. by eapply Hun.
    + by eapply Hinv.
Qed.

(** A test found after a run of registrations was found before it or is one
    of the tests of the run. *)
Lemma forward_register_all tests g n ft t :
  forward (register_all tests g) n ft = Some t →
  t ∈ tests ∨ forward g n ft = Some t.
Proof.
  induction tests as [|t0 tests IH] using rev_ind; [by right|].
  rewrite register_all_snoc, forward_register_stattest.
  destruct (decide (n = name t0)).
  - case_decide; [|discriminate]. intros [= <-]. left. set_solver.
  - intros H. destruct (IH H); [left; set_solver | by right].
Qed.

Lemma reverse_index_inv_register_all tests :
  func_names_agree tests →
  reverse_index_inv (register_all tests initial_registry).
Proof.
  induction tests as [|t0 tests IH] using rev_ind; intros Hagree.
  - apply reverse_index_inv_initial.
  - rewrite register_all_snoc. apply reverse_index_inv_register_stattest.
    + apply IH. intros t1 t2 H1 H2. apply Hagree; set_solver.
    + intros n ft t Hfw Hf.
      destruct (forward_register_all _ _ _ _ _ Hfw) as [Hin|Hinit];
        [|discriminate Hinit].
      apply Hagree; [set_solver | set_solver | done].
Qed.

(** C6, as the code has it.  The reverse index holds in the initial state; a
    registration keeps it when no test held under another name has the
    function of the registered test; so it holds after every run of
    registrations in which a function is never registered under two
    names. *)
Theorem reverse_index_invariant :
  reverse_index_inv initial_registry
  ∧ (∀ stat_test g,
       reverse_index_inv g → func_unshared g stat_test →
       reverse_index_inv (register_stattest stat_test g))
  ∧ (∀ tests,
       func_names_agree tests →
       reverse_index_inv (register_all tests initial_registry)).
Proof.
  split; [apply reverse_index_inv_initial|]. split.
  - intros stat_test g. apply reverse_index_inv_register_stattest.
  - apply reverse_index_inv_register_all.
Qed.

Lemma reverse_index_invariant_witness :
  reverse_index_inv builtin_registry.
Proof.
  apply (proj2 (proj2 reverse_index_invariant)
           [ks_stat_test builtin_stattests; chi_stat_test builtin_stattests;
            z_stat_test builtin_stattests]).
  intros t1 t2 H1 H2 Hf.
  repeat (apply elem_of_cons in H1 as [->|H1]);
    repeat (apply elem_of_cons in H2 as [->|H2]);
    try reflexivity; try discriminate Hf;
    try (by apply elem_of_nil in H1); by apply elem_of_nil in H2.
Defined.

(** ** A test registered for no feature type *)

Lemma get_register_all_other_names tests g n :
  (∀ t, t ∈ tests → name t ≠ n) →
  PyDict.get n (_registered_stat_tests (register_all tests g))
  = PyDict.get n (_registered_stat_tests g).
Proof.
  induction tests as [|t0 tests IH] using rev_ind; intros Hne; [reflexivity|].
  rewrite register_all_snoc. unfold register_stattest at 1; simpl.
  rewrite PyDictFacts.get_setitem_ne.
  - apply IH. intros t Ht. apply Hne. set_solver.
  - intros Heq. apply (Hne t0); [set_solver | done].
Qed.

(** C10. A test registered with an empty list of allowed feature types is
    entered in the forward dictionary with an empty dictionary of types.
    From then on, as long as no test of the same name is registered, the
    resolution of its name raises [StatTestInvalidFeatureTypeError] with an
    empty list of valid types for every feature type, and so never
    [StatTestNotFoundError]. *)
Theorem get_stattest_no_allowed_types stattests g stat_test later
    reference_data current_data feature_type :
  allowed_feature_types stat_test = [] →
  (∀ t, t ∈ later → name t ≠ name stat_test) →
  let g' := register_all later (register_stattest stat_test g) in
  PyDict.get (name stat_test) (_registered_stat_tests g') = Some PyDict.empty
  ∧ get_stattest stattests g' reference_data current_data feature_type
      (SelStr (name stat_test))
    = Raise (StatTestInvalidFeatureTypeError (name stat_test) feature_type [])
  ∧ ¬ is_not_found
        (get_stattest stattests g' reference_data current_data feature_type
           (SelStr (name stat_test))).
Proof.
  intros Hempty Hlater g'.
  assert (Hget : PyDict.get (name stat_test) (_registered_stat_tests g')
                 = Some PyDict.empty).
  { subst g'. rewrite get_register_all_other_names by done.
    unfold register_stattest; simpl.
    rewrite PyDictFacts.get_setitem_eq, Hempty. reflexivity. }
  assert (Hres : get_stattest stattests g' reference_data current_data
                   feature_type (SelStr (name stat_test))
                 = Raise (StatTestInvalidFeatureTypeError (name stat_test)
                            feature_type [])).
  { simpl. unfold lookup_stattest. rewrite Hget. reflexivity. }
  split; [exact Hget|]. split; [exact Hres|].
  rewrite Hres. intros (n & available & H). discriminate H.
Qed.

Lemma get_stattest_no_allowed_types_witness :
  get_stattest builtin_stattests
    (register_all [t_b] (register_stattest t_none builtin_registry))
    [] [] "num" (SelStr "nothing")
  = Raise (StatTestInvalidFeatureTypeError "nothing" "num" []).
Proof.
  apply (get_stattest_no_allowed_types builtin_stattests builtin_registry
           t_none [t_b] [] [] "num").
  - reflexivity.
  - intros t Ht. apply list_elem_of_singleton in Ht as ->. discriminate.
Defined.

(** ** The text of a cell *)

#[local] Arguments String.append !s1 s2 /.

Lemma in_class_alphabet c : in_class c = bool_decide (c ∈ alphabet).
Proof. destruct c as [[] [] [] [] [] [] [] []]; vm_compute; reflexivity. Qed.

(** [re_sub] keeps the characters of the class, in order, and nothing
    else. *)
Lemma re_sub_filter s :
  list_ascii_of_string (re_sub s)
  = filter (fun c => c ∈ alphabet) (list_ascii_of_string s).
Proof.
  induction s as [|c s IH]; simpl; [reflexivity|].
  rewrite in_class_alphabet. case_bool_decide as Hc.
  - rewrite filter_cons_True by done. simpl. by rewrite IH.
  - by rewrite filter_cons_False.
Qed.

Lemma re_sub_app a b : re_sub (a +:+ b) = re_sub a +:+ re_sub b.
Proof.
  induction a as [|c a IH]; simpl; [reflexivity|].
  destruct (in_class c); simpl; by rewrite IH.
Qed.

Lemma alnum_no_space s : alnum s → no_space s.
Proof. induction s; simpl; naive_solver. Qed.

Lemma re_sub_alnum s : alnum s → re_sub s = s.
Proof.
  induction s as [|c s IH]; simpl; [done|].
  intros (-> & _ & Hs). by rewrite IH.
Qed.

Lemma append_empty_r s : s +:+ "" = s.
Proof. induction s; simpl; congruence. Qed.

Lemma append_assoc a b c : (a +:+ b) +:+ c = a +:+ (b +:+ c).
Proof. induction a; simpl; congruence. Qed.

Lemma append_eq_empty a b : a +:+ b = "" → a = "" ∧ b = "".
Proof. destruct a; simpl; [done | discriminate]. Qed.

(** [split] cuts at every white-space character. *)
Lemma split_from_app_space word a c b :
  isspace c = true →
  split_from word (a +:+ String c b) = (split_from word a ++ split b)%list.
Proof.
  intros Hc. revert word. induction a as [|x a IH]; intros word; simpl.
  - rewrite Hc. by destruct (decide (word = "")).
  - destruct (isspace x).
    + destruct (decide (word = "")); simpl; by rewrite IH.
    + apply IH.
Qed.

Lemma split_app_space a c b :
  isspace c = true → split (a +:+ String c b) = (split a ++ split b)%list.
Proof. apply split_from_app_space. Qed.

(** A run without white space is one token, unless it is empty. *)
Lemma split_from_no_space word s :
  no_space s →
  split_from word s = if decide (word +:+ s = "") then [] else [word +:+ s].
Proof.
  revert word. induction s as [|c s IH]; intros word; simpl.
  - intros _. by rewrite append_empty_r.
  - intros [-> Hs]. rewrite IH by done. by rewrite append_assoc.
Qed.

Lemma split_no_space s : no_space s → s ≠ "" → split s = [s].
Proof.
  intros Hs Hne. unfold split. rewrite split_from_no_space by done.
  simpl. by rewrite decide_False.
Qed.

Lemma no_space_app a b : no_space a → no_space b → no_space (a +:+ b).
Proof. induction a; simpl; naive_solver. Qed.

(** Every token is a non-empty run without white space. *)
Lemma split_from_tokens word s tok :
  no_space word → tok ∈ split_from word s → tok ≠ "" ∧ no_space tok.
Proof.
  revert word. induction s as [|c s IH]; intros word Hw; simpl.
  - case_decide; [by intros ?%elem_of_nil|].
    by intros ->%list_elem_of_singleton.
  - destruct (isspace c) eqn:Hc.
    + case_decide.
      * by apply IH.
      * intros [->|Hin]%elem_of_cons; [done|]. by apply (IH "").
    + apply IH. apply no_space_app; simpl; done.
Qed.

Lemma split_tokens s tok : tok ∈ split s → tok ≠ "" ∧ no_space tok.
Proof. by apply split_from_tokens. Qed.

(** A word of letters and digits that stands between two spaces of a text is
    one of the tokens of the text. *)
Lemma token_of_text a word_ b :
  alnum word_ → word_ ≠ "" →
  word_ ∈ split (re_sub (a +:+ " " +:+ word_ +:+ " " +:+ b)).
Proof.
  intros Hal Hne.
  rewrite !re_sub_app. change (re_sub " ") with " ".
  rewrite (re_sub_alnum word_) by done.
  change (" " +:+ word_ +:+ " " +:+ re_sub b)
    with (String " " (word_ +:+ String " " (re_sub b))).
  rewrite split_app_space by reflexivity.
  rewrite split_app_space by reflexivity.
  rewrite (split_no_space word_) by (by apply alnum_no_space || done).
  set_solver.
Qed.

(** [lower] maps the upper-case letters to the lower-case ones and leaves
    the other characters of the class as they are. *)
Lemma lower_upper_case :
  lower "ABCDEFGHIJKLMNOPQRSTUVWXYZ" = "abcdefghijklmnopqrstuvwxyz".
Proof. reflexivity. Qed.

Lemma lower_other_class :
  lower "abcdefghijklmnopqrstuvwxyz0123456789 "
  = "abcdefghijklmnopqrstuvwxyz0123456789 ".
Proof. reflexivity. Qed.

Lemma lower_idempotent s : lower (lower s) = lower s.
Proof.
  induction s as [|c s IH]; simpl; [reflexivity|]. rewrite IH. f_equal.
  destruct c as [[] [] [] [] [] [] [] []]; vm_compute; reflexivity.
Qed.

(** ** The per-row computation *)

Section loop.
Context (lem : WordNetLemmatizer) (words_list : list string)
        (lemmatisize : bool).

Local Abbreviation listed word_ :=
  (normalise lem lemmatisize word_ ∈ words_list).

Lemma for_word_in_0_or_1 words :
  for_word_in lem words_list lemmatisize words = 0%Z
  ∨ for_word_in lem words_list lemmatisize words = 1%Z.
Proof.
  induction words as [|w words IH]; simpl; [by left|].
  case_decide; [by right | exact IH].
Qed.

(** The loop stops at the first token whose form is listed: the tokens
    after it do not matter. *)
Lemma for_word_in_first_match before word_ after :
  (∀ w, w ∈ before → ¬ listed w) → listed word_ →
  for_word_in lem words_list lemmatisize (before ++ word_ :: after)%list
  = 1%Z.
Proof.
  intros Hbefore Hword. induction before as [|w before IH]; simpl.
  - by rewrite decide_True.
  - rewrite decide_False by (apply Hbefore; set_solver).
    apply IH. intros w' Hw'. apply Hbefore. set_solver.
Qed.

Lemma for_word_in_1 words :
  for_word_in lem words_list lemmatisize words = 1%Z
  ↔ ∃ before word_ after,
      words = (before ++ word_ :: after)%list
      ∧ (∀ w, w ∈ before → ¬ listed w) ∧ listed word_.
Proof.
  split.
  - induction words as [|w words IH]; simpl; [discriminate|].
    case_decide as Hw.
    + intros _. exists [], w, words. split; [done|]. split; [|done].
      by intros ? ?%elem_of_nil.
    + intros (before & word_ & after & -> & Hb & Hword)%IH.
      exists (w :: before), word_, after. split; [done|]. split; [|done].
      intros w' [->|?]%elem_of_cons; [done | by apply Hb].
  - intros (before & word_ & after & -> & Hb & Hword).
    by apply for_word_in_first_match.
Qed.

Lemma for_word_in_0 words :
  for_word_in lem words_list lemmatisize words = 0%Z
  ↔ ∀ w, w ∈ words → ¬ listed w.
Proof.
  induction words as [|w words IH]; simpl.
  - split; [by intros _ ? ?%elem_of_nil | done].
  - case_decide as Hw.
    + split; [discriminate|]. intros H. destruct (H w); [set_solver | done].
    + rewrite IH. split.
      * intros H w' [->|?]%elem_of_cons; [done | by apply H].
      * intros H w' Hw'. apply H. set_solver.
Qed.

Lemma for_word_in_exists words word_ :
  word_ ∈ words → listed word_ →
  for_word_in lem words_list lemmatisize words = 1%Z.
Proof.
  intros Hin Hword.
  destruct (for_word_in_0_or_1 words) as [H0|H1]; [|exact H1].
  rewrite for_word_in_0 in H0. by destruct (H0 word_).
Qed.
End loop.

(** C7. A missing value that the column stores as the float NaN is not
    [None]: the test of line 21 lets it through, [re.sub] raises [TypeError]
    on it, and the cell yields no 0, whatever the words and the setting of
    [lemmatisize].  The same holds of every cell that is neither [None] nor
    a string. *)
Theorem listed_words_present_nan_raises :
  (∀ lem words_list lemmatisize,
     listed_words_present lem PyFloatNaN words_list lemmatisize
     = Raise TypeError
     ∧ listed_words_present lem PyFloatNaN words_list lemmatisize
       ≠ Return 0%Z)
  ∧ (∀ lem x words_list lemmatisize,
       x ≠ PyNone → (∀ s, x ≠ PyStr s) →
       listed_words_present lem x words_list lemmatisize = Raise TypeError)
  ∧ listed_words_present toy_lemmatizer PyFloatNaN ["run"] true
    = Raise TypeError.
Proof.
  split; [|split; [|reflexivity]].
  - intros lem words_list lemmatisize. split; [reflexivity | discriminate].
  - intros lem x words_list lemmatisize Hnone Hstr.
    destruct x as [|s|z|]; try reflexivity; [done | by destruct (Hstr s)].
Qed.

(** What lines 20-30 do on the cells they accept.  The cell [None] gives 0.
    For a cell that is a string, the tokens are the white-space separated words of the string
    with the characters outside [A-Za-z0-9 ] removed; each token is
    lower-cased, and lemmatized when [lemmatisize] is set; the result is 1
    when some token's form is in [words_list], decided at the first such
    token, and 0 when no token's form is; the empty string gives 0. *)
Lemma listed_words_present_text lem words_list lemmatisize :
  listed_words_present lem PyNone words_list lemmatisize = Return 0%Z
  ∧ (∀ s,
       let words := split (re_sub s) in
       list_ascii_of_string (re_sub s)
       = filter (fun c => c ∈ alphabet) (list_ascii_of_string s)
       ∧ (∀ w, w ∈ words → w ≠ "" ∧ no_space w)
       ∧ (∀ w, normalise lem lemmatisize w
               = if lemmatisize then lemmatize lem (lower w) else lower w)
       ∧ ((listed_words_present lem (PyStr s) words_list lemmatisize
           = Return 1%Z
           ∧ ∃ before word_ after,
               words = (before ++ word_ :: after)%list
               ∧ (∀ w, w ∈ before →
                    normalise lem lemmatisize w ∉ words_list)
               ∧ normalise lem lemmatisize word_ ∈ words_list)
          ∨ (listed_words_present lem (PyStr s) words_list lemmatisize
             = Return 0%Z
             ∧ ∀ w, w ∈ words → normalise lem lemmatisize w ∉ words_list)))
  ∧ listed_words_present lem (PyStr "") words_list lemmatisize = Return 0%Z.
Proof.
  split; [reflexivity|]. split; [|reflexivity].
  intros s words. split; [apply re_sub_filter|].
  split; [intros w; apply split_tokens|]. split; [reflexivity|].
  simpl. fold words.
  destruct (for_word_in_0_or_1 lem words_list lemmatisize words) as [H0|H1].
  - right. rewrite H0. split; [reflexivity|]. by apply for_word_in_0.
  - left. rewrite H1. split; [reflexivity|]. by apply for_word_in_1.
Qed.

(** The examples of the specification, with a lemmatizer that maps
    "running" to "run". *)
Lemma listed_words_present_examples :
  listed_words_present toy_lemmatizer PyNone ["run"] true = Return 0%Z
  ∧ listed_words_present toy_lemmatizer (PyStr "Running FAST!!") ["run"] true
    = Return 1%Z
  ∧ listed_words_present toy_lemmatizer (PyStr "Running FAST!!") ["run"] false
    = Return 0%Z
  ∧ listed_words_present toy_lemmatizer (PyStr "") ["run"] true = Return 0%Z
  ∧ split (re_sub "Running FAST!!") = ["Running"; "FAST"].
Proof. repeat split. Qed.

(** ** Letter case *)

(** The entry "Run" of [words_list] and a text that contains the very word
    "Run": the token is lower-cased to "run", the entry is compared as it is
    written, and the result is 0. *)
Lemma listed_words_present_upper_case_entry :
  "Run" ∈ ["Run"]
  ∧ "Run" ∈ split (re_sub "Run fast")
  ∧ listed_words_present toy_lemmatizer (PyStr "Run fast") ["Run"] false
    = Return 0%Z
  ∧ listed_words_present toy_lemmatizer (PyStr "Run fast") ["Run"] false
    ≠ Return 1%Z.
Proof.
  split; [apply list_elem_of_here|]. split; [apply list_elem_of_here|].
  split; [reflexivity | discriminate].
Qed.

(** C8, as the code has it.  Only the tokens of the text are lower-cased
    (and lemmatized); the entries of [words_list] are compared as written.
    For an entry [w] written in lower case (and, when [lemmatisize] is set,
    equal to its own lemma) and a text one of whose tokens is [w] in any
    letter case, the result is 1. *)
Theorem listed_words_present_any_case lem words_list lemmatisize s word_ w :
  w ∈ words_list →
  lower w = w →
  (lemmatisize = true → lemmatize lem w = w) →
  word_ ∈ split (re_sub s) →
  lower word_ = lower w →
  listed_words_present lem (PyStr s) words_list lemmatisize = Return 1%Z.
Proof.
  intros Hw Hlower Hlemma Htoken Hcase. simpl. f_equal.
  apply for_word_in_exists with word_; [exact Htoken|].
  unfold normalise. rewrite Hcase, Hlower.
  destruct lemmatisize; [by rewrite Hlemma | done].
Qed.

Lemma listed_words_present_any_case_witness :
  listed_words_present toy_lemmatizer (PyStr "Please RuN, now!") ["walk"; "run"]
    true
  = Return 1%Z.
Proof.
  apply (listed_words_present_any_case toy_lemmatizer ["walk"; "run"] true
           "Please RuN, now!" "RuN" "run").
  - apply list_elem_of_further, list_elem_of_here.
  - reflexivity.
  - reflexivity.
  - apply list_elem_of_further, list_elem_of_here.
  - reflexivity.
Defined.

(** ** The generated frame *)

Lemma listed_words_present_text_cell lem x words_list lemmatisize :
  text_cell x →
  ∃ z, listed_words_present lem x words_list lemmatisize = Return z
       ∧ (z = 0%Z ∨ z = 1%Z).
Proof.
  intros [->|[s ->]]; simpl.
  - exists 0%Z. split; [reflexivity | by left].
  - eexists. split; [reflexivity|]. apply for_word_in_0_or_1.
Qed.

(** [series_apply] on a column whose cells all give a value: same length, the
    value of each row at the same position. *)
Lemma apply_total {A B : Type} (f : A → Result B) (P : B → Prop) (l : list A) :
  Forall (fun x => ∃ y, f x = Return y ∧ P y) l →
  ∃ ys, series_apply f l = Return ys
        ∧ List.length ys = List.length l
        ∧ (∀ i x, l !! i = Some x →
             ∃ y, f x = Return y ∧ ys !! i = Some y)
        ∧ Forall P ys.
Proof.
  induction 1 as [|x l (y & Hy & HP) _ (ys & Hys & Hlen & Hrows & HPs)]; simpl.
  - exists []. split; [reflexivity|]. split; [reflexivity|].
    split; [intros i x H; discriminate H | constructor].
  - exists (y :: ys). rewrite Hy; simpl. rewrite Hys; simpl.
    split; [reflexivity|]. split; [by rewrite Hlen|].
    split; [|by constructor].
    intros [|i] x'; simpl.
    + intros [= <-]. eauto.
    + apply Hrows.
Qed.

(** C9. A frame that has the configured column, one of whose cells is a
    missing value stored as NaN: the per-row computation raises on that
    cell, and [generate_feature] raises [TypeError] and returns no frame,
    where a column of 0 and 1 of the length of the input is due. *)
Theorem generate_feature_nan_raises :
  PyDict.get (column_name review_feature) review_frame_nan
  = Some [PyStr "I run"; PyFloatNaN]
  ∧ generate_feature review_feature review_frame_nan
    = Raise TypeError
  ∧ ¬ ∃ out, generate_feature review_feature review_frame_nan = Return out.
Proof.
  split; [reflexivity|]. split; [reflexivity|].
  intros [out H]. discriminate H.
Qed.

(** What lines 19-47 do on the frames they accept.  For a frame that has
    the configured column, all of whose cells are [None] or strings, [generate_feature] returns a frame
    with exactly one column, labelled [column_name], with one value per row
    of the input column: the result of the per-row computation on the cell
    of that row, which is the integer 0 or 1.  No other column of the input
    appears in the result. *)
Lemma generate_feature_frame self data column :
  PyDict.get (column_name self) data = Some column →
  Forall text_cell column →
  ∃ feature,
    generate_feature self data = Return [(column_name self, feature)]
    ∧ PyDict.keys [(column_name self, feature)] = [column_name self]
    ∧ List.length feature = List.length column
    ∧ (∀ i x, column !! i = Some x →
         ∃ z, listed_words_present (lem self) x (words_list self)
                (lemmatisize self) = Return z
              ∧ feature !! i = Some (PyInt z))
    ∧ Forall (fun v => v = PyInt 0 ∨ v = PyInt 1) feature.
Proof.
  intros Hcol Hcells. unfold generate_feature. rewrite Hcol.
  destruct (apply_total
              (fun x => z ← listed_words_present (lem self) x (words_list self)
                              (lemmatisize self); Return (PyInt z))
              (fun v => v = PyInt 0 ∨ v = PyInt 1) column)
    as (feature & Hfeature & Hlen & Hrows & H01).
  { eapply Forall_impl; [exact Hcells|]. intros x Hx.
    destruct (listed_words_present_text_cell (lem self) x (words_list self)
                (lemmatisize self) Hx) as (z & -> & Hz).
    exists (PyInt z). split; [reflexivity|].
    destruct Hz as [-> | ->]; [by left | by right]. }
  exists feature. rewrite Hfeature; simpl.
  split; [reflexivity|]. split; [reflexivity|]. split; [exact Hlen|].
  split; [|exact H01].
  intros i x Hi. destruct (Hrows i x Hi) as (y & Hy & Hyi).
  destruct (listed_words_present (lem self) x (words_list self)
              (lemmatisize self)) as [z|e]; simpl in Hy; [|discriminate Hy].
  injection Hy as <-. eauto.
Qed.

Lemma generate_feature_frame_witness :
  ∃ feature,
    generate_feature review_feature review_frame
    = Return [(column_name review_feature, feature)]
    ∧ PyDict.keys [(column_name review_feature, feature)]
      = [column_name review_feature]
    ∧ List.length feature
      = List.length [PyStr "Running FAST!!"; PyNone; PyStr "walk"]
    ∧ (∀ i x, [PyStr "Running FAST!!"; PyNone; PyStr "walk"] !! i = Some x →
         ∃ z, listed_words_present (lem review_feature) x
                (words_list review_feature) (lemmatisize review_feature)
              = Return z
              ∧ feature !! i = Some (PyInt z))
    ∧ Forall (fun v => v = PyInt 0 ∨ v = PyInt 1) feature.
Proof.
  apply (generate_feature_frame review_feature review_frame
           [PyStr "Running FAST!!"; PyNone; PyStr "walk"]).
  - reflexivity.
  - constructor; [right; by exists "Running FAST!!"|].
    constructor; [by left|].
    constructor; [right; by exists "walk"|].
    constructor.
Defined.

(** The frame that the call above returns. *)
Lemma generate_feature_review_frame :
  generate_feature review_feature review_frame
  = Return [("review", [PyInt 1; PyInt 0; PyInt 0])].
Proof. reflexivity. Qed.

(** * Further properties of the registry *)

(** ** Keys of a dictionary *)

Module PyDictKeys.
Section keys.
Context {K V : Type} `{EqDecision K}.
Implicit Types (d : PyDict.t K V) (k : K) (v : V).

Lemma keys_cons d k v : PyDict.keys ((k, v) :: d) = k :: PyDict.keys d.
Proof. reflexivity. Qed.

Lemma keys_setitem_present d k v :
  k ∈ PyDict.keys d → PyDict.keys (PyDict.setitem k v d) = PyDict.keys d.
Proof.
  induction d as [|[k0 v0] d IH].
  - by intros ?%elem_of_nil.
  - rewrite keys_cons. intros Hin. cbn [PyDict.setitem].
    destruct (decide (k = k0)) as [->|Hne]; rewrite !keys_cons; [done|].
    rewrite IH; [done|]. apply elem_of_cons in Hin as [?|?]; done.
Qed.

Lemma keys_setitem_absent d k v :
  k ∉ PyDict.keys d →
  PyDict.keys (PyDict.setitem k v d) = (PyDict.keys d ++ [k])%list.
Proof.
  induction d as [|[k0 v0] d IH]; [done|].
  rewrite keys_cons. intros Hin. cbn [PyDict.setitem].
  destruct (decide (k = k0)) as [->|Hne]; rewrite !keys_cons.
  - destruct Hin. apply list_elem_of_here.
  - rewrite IH; [done|]. intros ?. apply Hin. by apply list_elem_of_further.
Qed.

(** An assignment keeps the place of a key that is present and puts a new
    key last. *)
Lemma keys_setitem d k v :
  PyDict.keys (PyDict.setitem k v d)
  = if decide (k ∈ PyDict.keys d) then PyDict.keys d
    else (PyDict.keys d ++ [k])%list.
Proof.
  case_decide; [by apply keys_setitem_present | by apply keys_setitem_absent].
Qed.

Lemma NoDup_keys_setitem d k v :
  NoDup (PyDict.keys d) → NoDup (PyDict.keys (PyDict.setitem k v d)).
Proof.
  intros Hnd. rewrite keys_setitem. case_decide as Hin; [done|].
  apply NoDup_app. split; [done|]. split; [|apply NoDup_singleton].
  intros x Hx ->%list_elem_of_singleton. done.
Qed.

(** Assigning twice to a key is assigning the last value. *)
Lemma setitem_setitem d k v v' :
  PyDict.setitem k v (PyDict.setitem k v' d) = PyDict.setitem k v d.
Proof.
  induction d as [|[k0 v0] d IH]; simpl.
  - by rewrite decide_True.
  - destruct (decide (k = k0)) as [->|Hne]; simpl.
    + by rewrite decide_True.
    + rewrite decide_False by done. by rewrite IH.
Qed.

Lemma keys_foldl_setitem (f : K → V) ks d :
  NoDup ks → (∀ k, k ∈ ks → k ∉ PyDict.keys d) →
  PyDict.keys (foldl (fun d k => PyDict.setitem k (f k) d) d ks)
  = (PyDict.keys d ++ ks)%list.
Proof.
  revert d. induction ks as [|k ks IH]; intros d Hnd Hfresh; simpl.
  - by rewrite app_nil_r.
  - apply NoDup_cons in Hnd as [Hk Hnd].
    rewrite IH; [|done|].
    + rewrite keys_setitem, decide_False by (apply Hfresh; set_solver).
      by rewrite <- app_assoc.
    + intros k' Hk'. rewrite keys_setitem, decide_False
        by (apply Hfresh; set_solver).
      intros [?| ->%list_elem_of_singleton]%elem_of_app; [|done].
      by apply (Hfresh k'); [set_solver|].
Qed.

(** The keys of [{k: f(k) for k in ks}] are [ks], in order, when [ks] has no
    repetition. *)
Lemma keys_comprehension (f : K → V) ks :
  NoDup ks → PyDict.keys (PyDict.comprehension ks f) = ks.
Proof.
  intros Hnd. unfold PyDict.comprehension.
  rewrite keys_foldl_setitem; [reflexivity | done |].
  intros k _ Hk. by apply elem_of_nil in Hk.
Qed.
End keys.
End PyDictKeys.

Lemma keys_register_stattest stat_test g :
  PyDict.keys (_registered_stat_tests (register_stattest stat_test g))
  = if decide (name stat_test ∈ PyDict.keys (_registered_stat_tests g))
    then PyDict.keys (_registered_stat_tests g)
    else (PyDict.keys (_registered_stat_tests g) ++ [name stat_test])%list.
Proof. unfold register_stattest; simpl. apply PyDictKeys.keys_setitem. Qed.

Lemma keys_register_all_incl tests g n :
  n ∈ PyDict.keys (_registered_stat_tests g) →
  n ∈ PyDict.keys (_registered_stat_tests (register_all tests g)).
Proof.
  intros Hn. induction tests as [|t tests IH] using rev_ind; [exact Hn|].
  rewrite register_all_snoc, keys_register_stattest.
  case_decide; [exact IH | set_solver].
Qed.

Lemma keys_register_all_fresh tests g :
  NoDup (name <$> tests) →
  (∀ t, t ∈ tests → name t ∉ PyDict.keys (_registered_stat_tests g)) →
  PyDict.keys (_registered_stat_tests (register_all tests g))
  = (PyDict.keys (_registered_stat_tests g) ++ (name <$> tests))%list.
Proof.
  induction tests as [|t tests IH] using rev_ind; intros Hnd Hfresh.
  - simpl. by rewrite app_nil_r.
  - rewrite fmap_app in Hnd. apply NoDup_app in Hnd as (Hnd & Hdisj & _).
    rewrite register_all_snoc, keys_register_stattest.
    rewrite IH; [|done|intros t' Ht'; apply Hfresh; set_solver].
    rewrite decide_False.
    + rewrite fmap_app. simpl. by rewrite app_assoc.
    + intros [Hin|Hin]%elem_of_app.
      * by apply (Hfresh t); [set_solver|].
      * apply (Hdisj (name t)); [done | simpl; set_solver].
Qed.

(** ** Registration followed by resolution *)

Lemma lookup_stattest_invalid g n ft funcs :
  PyDict.get n (_registered_stat_tests g) = Some funcs →
  PyDict.get ft funcs = None →
  lookup_stattest g n ft
  = Raise (StatTestInvalidFeatureTypeError n ft (PyDict.keys funcs)).
Proof. unfold lookup_stattest. by intros -> ->. Qed.

Lemma reverse_register_stattest_eq stat_test g :
  reverse (register_stattest stat_test g) (func stat_test)
  = Some (name stat_test).
Proof. rewrite reverse_register_stattest. by rewrite decide_True. Qed.

(** X1. Right after a test has been registered, in whatever state the
    registry was, both its name and its function resolve to it for each of
    its allowed feature types. *)
Theorem register_stattest_then_get stattests g stat_test reference_data
    current_data ft :
  ft ∈ allowed_feature_types stat_test →
  get_stattest stattests (register_stattest stat_test g) reference_data
    current_data ft (SelStr (name stat_test)) = Return stat_test
  ∧ get_stattest stattests (register_stattest stat_test g) reference_data
      current_data ft (SelCallable (func stat_test)) = Return stat_test.
Proof.
  intros Hft.
  assert (Hfw : forward (register_stattest stat_test g) (name stat_test) ft
                = Some stat_test).
  { rewrite forward_register_stattest. by rewrite !decide_True. }
  split.
  - simpl. by apply lookup_stattest_forward.
  - rewrite (get_stattest_resolved _ _ _ _ _ _ (name stat_test)).
    + by apply lookup_stattest_forward.
    + right. exists (func stat_test). split; [reflexivity|].
      apply reverse_register_stattest_eq.
Qed.

Lemma register_stattest_then_get_witness :
  get_stattest builtin_stattests (register_stattest t_ab builtin_registry)
    [] [] "cat" (SelStr (name t_ab)) = Return t_ab
  ∧ get_stattest builtin_stattests (register_stattest t_ab builtin_registry)
      [] [] "cat" (SelCallable (func t_ab)) = Return t_ab.
Proof.
  apply (register_stattest_then_get builtin_stattests builtin_registry t_ab
           [] [] "cat").
  apply list_elem_of_further, list_elem_of_here.
Defined.

(** X2. Right after a test has been registered with a list of allowed types
    without repetition, its name and its function raise
    [StatTestInvalidFeatureTypeError] for every other feature type, and the
    valid types that the exception enumerates are the allowed types of the
    test, in their order. *)
Theorem register_stattest_then_invalid_type stattests g stat_test
    reference_data current_data ft :
  NoDup (allowed_feature_types stat_test) →
  ft ∉ allowed_feature_types stat_test →
  get_stattest stattests (register_stattest stat_test g) reference_data
    current_data ft (SelStr (name stat_test))
  = Raise (StatTestInvalidFeatureTypeError (name stat_test) ft
             (allowed_feature_types stat_test))
  ∧ get_stattest stattests (register_stattest stat_test g) reference_data
      current_data ft (SelCallable (func stat_test))
    = Raise (StatTestInvalidFeatureTypeError (name stat_test) ft
               (allowed_feature_types stat_test)).
Proof.
  intros Hnd Hft.
  assert (Hres : lookup_stattest (register_stattest stat_test g)
                   (name stat_test) ft
                 = Raise (StatTestInvalidFeatureTypeError (name stat_test) ft
                            (allowed_feature_types stat_test))).
  { rewrite (lookup_stattest_invalid _ _ _
               (PyDict.comprehension (allowed_feature_types stat_test)
                  (fun _ => stat_test))).
    - by rewrite PyDictKeys.keys_comprehension.
    - unfold register_stattest; simpl. apply PyDictFacts.get_setitem_eq.
    - rewrite PyDictFacts.get_comprehension. by rewrite decide_False. }
  split; [exact Hres|].
  rewrite (get_stattest_resolved _ _ _ _ _ _ (name stat_test)); [exact Hres|].
  right. exists (func stat_test). split; [reflexivity|].
  apply reverse_register_stattest_eq.
Qed.

Lemma register_stattest_then_invalid_type_witness :
  get_stattest builtin_stattests (register_stattest t_ab builtin_registry)
    [] [] "text" (SelStr (name t_ab))
  = Raise (StatTestInvalidFeatureTypeError (name t_ab) "text"
             (allowed_feature_types t_ab))
  ∧ get_stattest builtin_stattests (register_stattest t_ab builtin_registry)
      [] [] "text" (SelCallable (func t_ab))
    = Raise (StatTestInvalidFeatureTypeError (name t_ab) "text"
               (allowed_feature_types t_ab)).
Proof.
  apply (register_stattest_then_invalid_type builtin_stattests
           builtin_registry t_ab [] [] "text").
  - apply (bool_decide_unpack _). reflexivity.
  - apply (bool_decide_unpack _). reflexivity.
Defined.

(** X3. In a registry filled by registrations only, a name never resolves
    to a test of another name, to a test that does not allow the requested
    feature type, or to a test that was not registered. *)
Theorem get_stattest_by_name_sound stattests tests reference_data
    current_data ft n t :
  get_stattest stattests (register_all tests initial_registry)
    reference_data current_data ft (SelStr n) = Return t →
  name t = n ∧ ft ∈ allowed_feature_types t ∧ t ∈ tests.
Proof.
  simpl. unfold lookup_stattest.
  destruct (PyDict.get n
              (_registered_stat_tests (register_all tests initial_registry)))
    as [funcs|] eqn:Hn; [|discriminate].
  destruct (PyDict.get ft funcs) as [t'|] eqn:Hft; [|discriminate].
  intros [= ->].
  assert (Hfw : forward (register_all tests initial_registry) n ft = Some t).
  { unfold forward. rewrite Hn. exact Hft. }
  destruct (forward_wf_register_all tests initial_registry
              forward_wf_initial n funcs Hn) as (t0 & Hname & Hfuncs).
  rewrite Hfuncs in Hft. case_decide as Hin; [|discriminate].
  injection Hft as ->. split; [exact Hname|]. split; [exact Hin|].
  destruct (forward_register_all _ _ _ _ _ Hfw) as [?|Hinit];
    [done | discriminate Hinit].
Qed.

Lemma get_stattest_by_name_sound_witness :
  name (z_stat_test builtin_stattests) = "z"
  ∧ "cat" ∈ allowed_feature_types (z_stat_test builtin_stattests)
  ∧ z_stat_test builtin_stattests
    ∈ [ks_stat_test builtin_stattests; chi_stat_test builtin_stattests;
       z_stat_test builtin_stattests].
Proof.
  apply (get_stattest_by_name_sound builtin_stattests
           [ks_stat_test builtin_stattests; chi_stat_test builtin_stattests;
            z_stat_test builtin_stattests] [] [] "cat" "z").
  reflexivity.
Defined.

(** X4. Once a test has been registered, its name never raises
    [StatTestNotFoundError], whatever is registered afterwards: names are
    not removed from the forward dictionary. *)
Theorem registered_name_is_found stattests g stat_test later reference_data
    current_data ft :
  ¬ is_not_found
      (get_stattest stattests
         (register_all later (register_stattest stat_test g))
         reference_data current_data ft (SelStr (name stat_test))).
Proof.
  assert (Hin : name stat_test
                ∈ PyDict.keys (_registered_stat_tests
                     (register_all later (register_stattest stat_test g)))).
  { apply keys_register_all_incl. rewrite keys_register_stattest.
    case_decide; [done | set_solver]. }
  apply PyDictFacts.elem_of_keys in Hin as [funcs Hfuncs].
  simpl. unfold lookup_stattest. rewrite Hfuncs.
  destruct (PyDict.get ft funcs); intros (n & a & H); discriminate H.
Qed.

(** X5. When tests with distinct names have been registered, an unknown
    name raises [StatTestNotFoundError] with exactly the registered names,
    in the order of registration. *)
Theorem not_found_enumerates_names stattests tests reference_data
    current_data ft n :
  NoDup (name <$> tests) →
  n ∉ name <$> tests →
  get_stattest stattests (register_all tests initial_registry)
    reference_data current_data ft (SelStr n)
  = Raise (StatTestNotFoundError n (name <$> tests)).
Proof.
  intros Hnd Hn.
  assert (Hkeys : PyDict.keys (_registered_stat_tests
                    (register_all tests initial_registry)) = name <$> tests).
  { rewrite keys_register_all_fresh; [reflexivity | done |].
    intros t _ Hin. by apply elem_of_nil in Hin. }
  simpl. unfold lookup_stattest.
  destruct (PyDict.get n _) as [funcs|] eqn:Hget.
  - destruct Hn. rewrite <- Hkeys. apply PyDictFacts.elem_of_keys. eauto.
  - by rewrite Hkeys.
Qed.

Lemma not_found_enumerates_names_witness :
  get_stattest builtin_stattests
    (register_all [ks_stat_test builtin_stattests;
                   chi_stat_test builtin_stattests;
                   z_stat_test builtin_stattests] initial_registry)
    [] [] "num" (SelStr "psi")
  = Raise (StatTestNotFoundError "psi"
             (name <$> [ks_stat_test builtin_stattests;
                        chi_stat_test builtin_stattests;
                        z_stat_test builtin_stattests])).
Proof.
  apply (not_found_enumerates_names builtin_stattests
           [ks_stat_test builtin_stattests; chi_stat_test builtin_stattests;
            z_stat_test builtin_stattests] [] [] "num" "psi").
  - apply (bool_decide_unpack _). reflexivity.
  - apply (bool_decide_unpack _). reflexivity.
Defined.

(** X6. The reverse dictionary keeps the entry of a function whose test has
    been replaced: after a second test is registered under the same name with
    another function, the first function still resolves, and it resolves to
    the second test. *)
Theorem replaced_function_resolves_to_new stattests g t1 t2 reference_data
    current_data ft :
  name t1 = name t2 →
  func t1 ≠ func t2 →
  ft ∈ allowed_feature_types t2 →
  get_stattest stattests (register_stattest t2 (register_stattest t1 g))
    reference_data current_data ft (SelCallable (func t1))
  = Return t2.
Proof.
  intros Hname Hfunc Hft.
  rewrite (get_stattest_resolved _ _ _ _ _ _ (name t2)).
  - apply lookup_stattest_forward. rewrite forward_register_stattest.
    by rewrite !decide_True.
  - right. exists (func t1). split; [reflexivity|].
    rewrite reverse_register_stattest, decide_False by done.
    rewrite reverse_register_stattest_eq. by rewrite Hname.
Qed.

Lemma replaced_function_resolves_to_new_witness :
  get_stattest builtin_stattests
    (register_stattest t_a2 (register_stattest t_ab builtin_registry))
    [] [] "num" (SelCallable (func t_ab))
  = Return t_a2.
Proof.
  apply (replaced_function_resolves_to_new builtin_stattests builtin_registry
           t_ab t_a2 [] [] "num").
  - reflexivity.
  - discriminate.
  - apply list_elem_of_here.
Defined.

(** X7. When no function has been registered under two names, the function
    of a test that the forward dictionary holds is a selector equivalent to
    the name of the test: both give the same result for every feature type,
    a test or an error. *)
Theorem get_stattest_func_as_name stattests tests n ft0 t reference_data
    current_data ft :
  func_names_agree tests →
  forward (register_all tests initial_registry) n ft0 = Some t →
  get_stattest stattests (register_all tests initial_registry)
    reference_data current_data ft (SelCallable (func t))
  = get_stattest stattests (register_all tests initial_registry)
      reference_data current_data ft (SelStr (name t)).
Proof.
  intros Hagree Hfw.
  rewrite (get_stattest_resolved _ _ _ _ _ _ (name t)); [reflexivity|].
  right. exists (func t). split; [reflexivity|].
  by eapply reverse_index_inv_register_all.
Qed.

Lemma get_stattest_func_as_name_witness :
  get_stattest builtin_stattests
    (register_all [t_ab; t_none2] initial_registry) [] [] "text"
    (SelCallable (func t_ab))
  = get_stattest builtin_stattests
      (register_all [t_ab; t_none2] initial_registry) [] [] "text"
      (SelStr (name t_ab)).
Proof.
  apply (get_stattest_func_as_name builtin_stattests [t_ab; t_none2]
           "a" "num" t_ab [] [] "text").
  - intros t1 t2 H1 H2 Hf.
    apply elem_of_cons in H1 as [->|H1]; apply elem_of_cons in H2 as [->|H2];
      try apply list_elem_of_singleton in H1 as ->;
      try apply list_elem_of_singleton in H2 as ->;
      try reflexivity; discriminate Hf.
  - reflexivity.
Defined.

(** X8. Registering a test a second time changes nothing. *)
Theorem register_stattest_idempotent stat_test g :
  register_stattest stat_test (register_stattest stat_test g)
  = register_stattest stat_test g.
Proof.
  unfold register_stattest; simpl.
  by rewrite !PyDictKeys.setitem_setitem.
Qed.

(** ** The default selection and the labels *)

(** X9. The default selection looks at the two columns only through the set
    of their labels: two pairs of columns with the same labels between them
    get the same test, so that neither the order of the values, nor the
    repetition of a value, nor which of the two columns a label comes from
    matters.  A NaN is a label of its own, one for each NaN object: a float
    column with two NaN does not have the labels of a column with one. *)
Theorem default_stattest_same_labels stattests g reference_data current_data
    reference_data' current_data' feature_type :
  (∀ x, x ∈ reference_data ∨ x ∈ current_data
        ↔ x ∈ reference_data' ∨ x ∈ current_data') →
  get_stattest stattests g reference_data current_data feature_type SelNone
  = get_stattest stattests g reference_data' current_data' feature_type
      SelNone.
Proof.
  intros Hsame.
  assert (Heq : labels reference_data current_data
                = labels reference_data' current_data').
  { apply set_eq. intros x. by rewrite !elem_of_labels. }
  simpl. unfold _get_default_stattest. by rewrite Heq.
Qed.

Lemma default_stattest_same_labels_witness :
  get_stattest builtin_stattests builtin_registry
    [LStr "a"; LNum 2%Qc; LStr "a"] [LNaN 1] "cat" SelNone
  = get_stattest builtin_stattests builtin_registry
      [LNaN 1; LNaN 1] [LNum 2%Qc; LStr "a"] "cat" SelNone.
Proof.
  apply (default_stattest_same_labels builtin_stattests builtin_registry
           [LStr "a"; LNum 2%Qc; LStr "a"] [LNaN 1]
           [LNaN 1; LNaN 1] [LNum 2%Qc; LStr "a"] "cat").
  intros x. set_solver.
Defined.

(** * Further properties of the trigger-word feature *)

(** ** Tokens *)

Lemma class_string_re_sub s : class_string (re_sub s).
Proof.
  induction s as [|c s IH]; simpl; [done|].
  destruct (in_class c) eqn:Hc; simpl; [by split | done].
Qed.

Lemma class_string_app a b :
  class_string a → class_string b → class_string (a +:+ b).
Proof. induction a; simpl; naive_solver. Qed.

Lemma split_from_class_string word s tok :
  class_string word → class_string s → tok ∈ split_from word s →
  class_string tok.
Proof.
  revert word. induction s as [|c s IH]; intros word Hw Hs; simpl.
  - case_decide; [by intros ?%elem_of_nil|].
    by intros ->%list_elem_of_singleton.
  - destruct Hs as [Hc Hs]. destruct (isspace c).
    + case_decide.
      * by apply IH.
      * intros [->|Hin]%elem_of_cons; [done|]. by apply (IH "").
    + apply IH; [|done]. apply class_string_app; simpl; done.
Qed.

Lemma alnum_class_no_space s : class_string s → no_space s → alnum s.
Proof. induction s; simpl; naive_solver. Qed.

(** X10. Every token of a text is a non-empty word of letters and digits of
    the class: no token is empty, and none holds a space, a punctuation mark
    or a character outside [A-Za-z0-9]. *)
Theorem tokens_are_alnum s tok :
  tok ∈ split (re_sub s) → tok ≠ "" ∧ alnum tok.
Proof.
  intros Htok. destruct (split_tokens _ _ Htok) as [Hne Hns].
  split; [exact Hne|]. apply alnum_class_no_space; [|exact Hns].
  apply (split_from_class_string "" (re_sub s)); [done | | exact Htok].
  apply class_string_re_sub.
Qed.

Lemma tokens_are_alnum_witness : "cant" ≠ "" ∧ alnum "cant".
Proof.
  apply (tokens_are_alnum "I can't, sorry" "cant").
  apply list_elem_of_further, list_elem_of_here.
Defined.

Lemma lower_alnum_char_lower_char c :
  in_class c = true → isspace c = false →
  lower_alnum_char (lower_char c) = true.
Proof.
  destruct c as [[] [] [] [] [] [] [] []]; vm_compute;
    intros H1 H2; first [reflexivity | discriminate H1 | discriminate H2].
Qed.

Lemma lower_alnum_chars_lower s : alnum s → lower_alnum_chars (lower s) = true.
Proof.
  induction s as [|c s IH]; simpl; [done|].
  intros (Hc & Hsp & Hs). by rewrite lower_alnum_char_lower_char, IH.
Qed.

Lemma lower_alnum_lower s : alnum s → s ≠ "" → lower_alnum (lower s) = true.
Proof.
  intros Hal Hne. pose proof (lower_alnum_chars_lower s Hal) as H.
  destruct s; [done | exact H].
Qed.

(** X11. Without lemmatization only an entry of [words_list] that is a
    non-empty word of lower-case letters and digits can be found: when every
    entry has an upper-case letter, a space, a hyphen or another character,
    or is empty, every text gives 0. *)
Theorem unmatchable_entries lem words_list s :
  (∀ w, w ∈ words_list → lower_alnum w = false) →
  listed_words_present lem (PyStr s) words_list false = Return 0%Z.
Proof.
  intros Hwl. simpl. f_equal. apply for_word_in_0.
  intros tok Htok Hin. destruct (tokens_are_alnum _ _ Htok) as [Hne Hal].
  apply Hwl in Hin. unfold normalise in Hin.
  by rewrite lower_alnum_lower in Hin.
Qed.

Lemma unmatchable_entries_witness :
  listed_words_present toy_lemmatizer
    (PyStr "E-mail from New York: Run!") ["e-mail"; "New York"; "Run"; ""]
    false
  = Return 0%Z.
Proof.
  apply (unmatchable_entries toy_lemmatizer
           ["e-mail"; "New York"; "Run"; ""] "E-mail from New York: Run!").
  intros w Hw.
  repeat (apply elem_of_cons in Hw as [->|Hw]; [reflexivity|]).
  by apply elem_of_nil in Hw.
Defined.

(** X12. A character outside the class does not separate tokens: the text
    gives the same result as the text without that character, so that the
    words on both sides of a hyphen, an apostrophe, a tab or a line break
    are read as one word. *)
Theorem removed_character_joins lem words_list lemmatisize a c b :
  in_class c = false →
  listed_words_present lem (PyStr (a +:+ String c b)) words_list lemmatisize
  = listed_words_present lem (PyStr (a +:+ b)) words_list lemmatisize.
Proof.
  intros Hc. simpl. rewrite !re_sub_app. simpl. by rewrite Hc.
Qed.

Lemma removed_character_joins_witness :
  listed_words_present toy_lemmatizer (PyStr ("e" +:+ String "-" "mail"))
    ["email"] false
  = listed_words_present toy_lemmatizer (PyStr ("e" +:+ "mail"))
      ["email"] false.
Proof.
  apply (removed_character_joins toy_lemmatizer ["email"] false "e" "-" "mail").
  reflexivity.
Defined.

(** ** Letter case of the text *)

Lemma in_class_lower_char c : in_class (lower_char c) = in_class c.
Proof. destruct c as [[] [] [] [] [] [] [] []]; vm_compute; reflexivity. Qed.

Lemma isspace_lower_char c : isspace (lower_char c) = isspace c.
Proof. destruct c as [[] [] [] [] [] [] [] []]; vm_compute; reflexivity. Qed.

Lemma re_sub_lower s : re_sub (lower s) = lower (re_sub s).
Proof.
  induction s as [|c s IH]; simpl; [reflexivity|].
  rewrite in_class_lower_char. destruct (in_class c); simpl; by rewrite IH.
Qed.

Lemma lower_app a b : lower (a +:+ b) = lower a +:+ lower b.
Proof. induction a; simpl; congruence. Qed.

Lemma lower_eq_empty s : lower s = "" ↔ s = "".
Proof. destruct s; simpl; split; congruence. Qed.

Lemma split_from_lower word s :
  split_from (lower word) (lower s) = lower <$> split_from word s.
Proof.
  revert word. induction s as [|c s IH]; intros word; simpl.
  - destruct (decide (word = "")) as [->|Hne]; [reflexivity|].
    rewrite decide_False; [reflexivity | by rewrite lower_eq_empty].
  - rewrite isspace_lower_char. destruct (isspace c).
    + destruct (decide (word = "")) as [->|Hne]; simpl.
      * apply (IH "").
      * rewrite decide_False by (by rewrite lower_eq_empty).
        f_equal. apply (IH "").
    + rewrite <- IH. by rewrite lower_app.
Qed.

Lemma for_word_in_lower lem words_list lemmatisize words :
  for_word_in lem words_list lemmatisize (lower <$> words)
  = for_word_in lem words_list lemmatisize words.
Proof.
  induction words as [|w words IH]; [reflexivity|].
  change (lower <$> w :: words) with (lower w :: (lower <$> words)).
  cbn [for_word_in]. rewrite IH. unfold normalise.
  by rewrite lower_idempotent.
Qed.

Lemma listed_words_present_lower lem words_list lemmatisize s :
  listed_words_present lem (PyStr (lower s)) words_list lemmatisize
  = listed_words_present lem (PyStr s) words_list lemmatisize.
Proof.
  simpl. f_equal. rewrite re_sub_lower. unfold split.
  change "" with (lower "") at 1. rewrite split_from_lower.
  apply for_word_in_lower.
Qed.

(** X13. The letter case of the text does not matter: two texts that differ
    only in the case of their letters A-Z give the same result. *)
Theorem text_case_insensitive lem words_list lemmatisize s s' :
  lower s = lower s' →
  listed_words_present lem (PyStr s) words_list lemmatisize
  = listed_words_present lem (PyStr s') words_list lemmatisize.
Proof.
  intros Hcase.
  rewrite <- (listed_words_present_lower lem words_list lemmatisize s).
  rewrite <- (listed_words_present_lower lem words_list lemmatisize s').
  by rewrite Hcase.
Qed.

Lemma text_case_insensitive_witness :
  listed_words_present toy_lemmatizer (PyStr "Running FAST!!") ["run"] true
  = listed_words_present toy_lemmatizer (PyStr "rUNNING fast!!") ["run"] true.
Proof.
  apply (text_case_insensitive toy_lemmatizer ["run"] true
           "Running FAST!!" "rUNNING fast!!").
  reflexivity.
Defined.

(** ** Texts put together *)

Lemma for_word_in_app lem words_list lemmatisize words1 words2 :
  for_word_in lem words_list lemmatisize (words1 ++ words2)%list
  = Z.max (for_word_in lem words_list lemmatisize words1)
          (for_word_in lem words_list lemmatisize words2).
Proof.
  induction words1 as [|w words1 IH]; simpl.
  - destruct (for_word_in_0_or_1 lem words_list lemmatisize words2) as [->| ->];
      reflexivity.
  - case_decide; [|exact IH].
    destruct (for_word_in_0_or_1 lem words_list lemmatisize words2) as [->| ->];
      reflexivity.
Qed.

(** X14. Two texts joined by a space give the greater of their two results:
    1 when one of them gives 1, and 0 when both give 0. *)
Theorem joined_texts_max lem words_list lemmatisize a b ra rb :
  listed_words_present lem (PyStr a) words_list lemmatisize = Return ra →
  listed_words_present lem (PyStr b) words_list lemmatisize = Return rb →
  listed_words_present lem (PyStr (a +:+ " " +:+ b)) words_list lemmatisize
  = Return (Z.max ra rb).
Proof.
  unfold listed_words_present. intros [= <-] [= <-]. f_equal.
  rewrite re_sub_app.
  change (re_sub (" " +:+ b)) with (String " " (re_sub b)).
  rewrite split_app_space by reflexivity.
  apply for_word_in_app.
Qed.

Lemma joined_texts_max_witness :
  listed_words_present toy_lemmatizer (PyStr ("walk on" +:+ " " +:+ "and run"))
    ["run"] false
  = Return (Z.max 0 1).
Proof.
  apply (joined_texts_max toy_lemmatizer ["run"] false "walk on" "and run");
    reflexivity.
Defined.

(** ** The list of words *)

(** X15. More words never turn a 1 into a 0: a text that gives 1 with a list
    of words gives 1 with every list that holds those words. *)
Theorem more_words_keep_match lem words_list words_list' lemmatisize s :
  (∀ w, w ∈ words_list → w ∈ words_list') →
  listed_words_present lem (PyStr s) words_list lemmatisize = Return 1%Z →
  listed_words_present lem (PyStr s) words_list' lemmatisize = Return 1%Z.
Proof.
  simpl. intros Hsub [= H1]. f_equal.
  apply for_word_in_1 in H1 as (before & word_ & after & Hwords & _ & Hin).
  apply for_word_in_exists with word_; [|by apply Hsub].
  rewrite Hwords. set_solver.
Qed.

Lemma more_words_keep_match_witness :
  listed_words_present toy_lemmatizer (PyStr "Running FAST!!")
    ["walk"; "run"; "fast"] true
  = Return 1%Z.
Proof.
  apply (more_words_keep_match toy_lemmatizer ["run"] ["walk"; "run"; "fast"]
           true "Running FAST!!").
  - intros w ->%list_elem_of_singleton.
    apply list_elem_of_further, list_elem_of_here.
  - reflexivity.
Defined.

(** X16. A list of non-empty words of letters and digits, joined by single
    spaces into a text, is read back as the same list of tokens. *)
Theorem tokens_of_joined_words words :
  Forall (fun w => w ≠ "" ∧ alnum w) words →
  split (re_sub (String.concat " " words)) = words.
Proof.
  induction 1 as [|w words [Hne Hal] Hwords IH]; [reflexivity|].
  assert (Hw : split (re_sub w) = [w]).
  { rewrite re_sub_alnum by done.
    apply split_no_space; [by apply alnum_no_space | done]. }
  destruct words as [|w' words]; [exact Hw|].
  change (String.concat " " (w :: w' :: words))
    with (w +:+ " " +:+ String.concat " " (w' :: words)).
  rewrite re_sub_app.
  change (re_sub (" " +:+ String.concat " " (w' :: words)))
    with (String " " (re_sub (String.concat " " (w' :: words)))).
  rewrite split_app_space by reflexivity.
  rewrite IH. rewrite re_sub_alnum in Hw by done. rewrite re_sub_alnum by done.
  by rewrite Hw.
Qed.

Lemma tokens_of_joined_words_witness :
  split (re_sub (String.concat " " ["Running"; "FAST"; "42"]))
  = ["Running"; "FAST"; "42"].
Proof.
  apply (tokens_of_joined_words ["Running"; "FAST"; "42"]).
  repeat (constructor; [split; [discriminate | vm_compute; tauto]|]).
  constructor.
Defined.

(** ** The outcomes of [generate_feature] *)

Lemma text_cell_or_not x : text_cell x ∨ ¬ text_cell x.
Proof.
  destruct x as [|s|z|].
  - left. by left.
  - left. right. by exists s.
  - right. intros [H|[s H]]; discriminate H.
  - right. intros [H|[s H]]; discriminate H.
Qed.

Lemma listed_words_present_not_text_cell lem x words_list lemmatisize :
  ¬ text_cell x →
  listed_words_present lem x words_list lemmatisize = Raise TypeError.
Proof.
  destruct x as [|s|z|]; intros Hx; try reflexivity.
  - destruct Hx. by left.
  - destruct Hx. right. by exists s.
Qed.

Lemma Forall_or_Exists_text_cell column :
  Forall text_cell column ∨ Exists (fun x => ¬ text_cell x) column.
Proof.
  induction column as [|x column [IH|IH]].
  - left. constructor.
  - destruct (text_cell_or_not x).
    + left. by constructor.
    + right. by constructor.
  - right. by constructor.
Qed.

Section rows.
Context (self : TriggerWordsPresent).

(** The function that line 37 applies to the column. *)
Local Abbreviation row x :=
  (z ← listed_words_present (lem self) x (words_list self)
         (lemmatisize self); Return (PyInt z)).

Lemma series_apply_text_cells column :
  Forall text_cell column →
  ∃ feature, series_apply (fun x => row x) column = Return feature.
Proof.
  intros Hcells.
  destruct (apply_total (fun x => row x) (fun _ => True) column)
    as (feature & Hfeature & _); [|by exists feature].
  eapply Forall_impl; [exact Hcells|]. intros x Hx.
  destruct (listed_words_present_text_cell (lem self) x (words_list self)
              (lemmatisize self) Hx) as (z & -> & _).
  by exists (PyInt z).
Qed.

Lemma series_apply_not_text_cell column :
  Exists (fun x => ¬ text_cell x) column →
  series_apply (fun x => row x) column = Raise TypeError.
Proof.
  induction 1 as [x column Hx|x column _ IH]; simpl.
  - by rewrite listed_words_present_not_text_cell.
  - rewrite IH. destruct (text_cell_or_not x) as [Hx|Hx].
    + destruct (listed_words_present_text_cell (lem self) x (words_list self)
                  (lemmatisize self) Hx) as (z & -> & _).
      reflexivity.
    + by rewrite listed_words_present_not_text_cell.
Qed.
End rows.

(** X17. The three outcomes of [generate_feature]: [KeyError] exactly when
    the frame has no column of the configured name; otherwise [TypeError]
    exactly when a cell of that column is neither [None] nor a string, and a
    frame exactly when every cell of it is [None] or a string. *)
Theorem generate_feature_outcomes self data :
  (generate_feature self data = Raise (KeyError (column_name self))
   ↔ PyDict.get (column_name self) data = None)
  ∧ (∀ column, PyDict.get (column_name self) data = Some column →
       (generate_feature self data = Raise TypeError
        ↔ Exists (fun x => ¬ text_cell x) column)
       ∧ ((∃ out, generate_feature self data = Return out)
          ↔ Forall text_cell column)).
Proof.
  unfold generate_feature. split.
  - destruct (PyDict.get (column_name self) data) as [column|] eqn:Hcol;
      [|done].
    split; [|discriminate].
    destruct (Forall_or_Exists_text_cell column) as [Hall|Hex].
    + destruct (series_apply_text_cells self column Hall) as (feature & ->).
      discriminate.
    + rewrite (series_apply_not_text_cell self column Hex). discriminate.
  - intros column ->.
    destruct (Forall_or_Exists_text_cell column) as [Hall|Hex].
    + destruct (series_apply_text_cells self column Hall) as (feature & ->).
      simpl. split; split; try done.
      * intros Hex. apply Exists_exists in Hex as (x & Hx & Hnot).
        destruct Hnot. by eapply Forall_forall in Hall.
      * intros _. eauto.
    + rewrite (series_apply_not_text_cell self column Hex). simpl.
      split; split; try done.
      * intros [out H]. discriminate H.
      * intros Hall. apply Exists_exists in Hex as (x & Hx & Hnot).
        destruct Hnot. by eapply Forall_forall in Hall.
Qed.

Lemma generate_feature_outcomes_witness :
  generate_feature review_feature review_frame_nan = Raise TypeError
  ∧ generate_feature review_feature [("stars", [PyInt 5])]
    = Raise (KeyError (column_name review_feature)).
Proof.
  split.
  - apply (generate_feature_outcomes review_feature review_frame_nan)
      with [PyStr "I run"; PyFloatNaN]; [reflexivity|].
    apply Exists_cons_tl, Exists_cons_hd.
    intros [H|[s H]]; discriminate H.
  - apply (generate_feature_outcomes review_feature [("stars", [PyInt 5])]).
    reflexivity.
Defined.

(** X18. [generate_feature] reads one column of the frame: adding a column
    of another name, or replacing one, does not change its result. *)
Theorem generate_feature_other_column self data c values :
  c ≠ column_name self →
  generate_feature self (PyDict.setitem c values data)
  = generate_feature self data.
Proof.
  intros Hc. unfold generate_feature.
  by rewrite PyDictFacts.get_setitem_ne.
Qed.

Lemma generate_feature_other_column_witness :
  generate_feature review_feature
    (PyDict.setitem "stars" [PyFloatNaN; PyNone; PyInt 9] review_frame)
  = generate_feature review_feature review_frame.
Proof.
  apply (generate_feature_other_column review_feature review_frame "stars"
           [PyFloatNaN; PyNone; PyInt 9]).
  discriminate.
Defined.

(** ** The default configuration *)

Lemma for_word_in_no_words lem lemmatisize words :
  for_word_in lem [] lemmatisize words = 0%Z.
Proof. apply for_word_in_0. intros w _ Hin. by apply elem_of_nil in Hin. Qed.

Lemma series_apply_no_words lem lemmatisize column :
  Forall text_cell column →
  series_apply
    (fun x => z ← listed_words_present lem x [] lemmatisize; Return (PyInt z))
    column
  = Return (replicate (List.length column) (PyInt 0)).
Proof.
  induction 1 as [|x column Hx _ IH]; [reflexivity|].
  cbn [series_apply]. rewrite IH.
  destruct Hx as [->|[s ->]]; simpl; [reflexivity|].
  by rewrite for_word_in_no_words.
Qed.

(** X19. A feature built without a list of words, directly or from a
    descriptor built without one, flags nothing: on a column of cells that
    are [None] or strings it returns a column of zeros of the same
    length. *)
Theorem default_feature_flags_nothing new_lem column_name lemmatisize data
    column :
  PyDict.get column_name data = Some column →
  Forall text_cell column →
  generate_feature
    (TriggerWordsPresent_init new_lem column_name None lemmatisize) data
  = Return [(column_name, replicate (List.length column) (PyInt 0))]
  ∧ generate_feature
      (TriggerWordsPresentDesc.feature new_lem
         (TriggerWordsPresentDesc.init None lemmatisize) column_name) data
    = Return [(column_name, replicate (List.length column) (PyInt 0))].
Proof.
  intros Hcol Hcells.
  split; unfold generate_feature; simpl; rewrite Hcol;
    by rewrite series_apply_no_words.
Qed.

Lemma default_feature_flags_nothing_witness :
  generate_feature
    (TriggerWordsPresent_init toy_lemmatizer "review" None None) review_frame
  = Return [("review", replicate 3 (PyInt 0))]
  ∧ generate_feature
      (TriggerWordsPresentDesc.feature toy_lemmatizer
         (TriggerWordsPresentDesc.init None None) "review") review_frame
    = Return [("review", replicate 3 (PyInt 0))].
Proof.
  apply (default_feature_flags_nothing toy_lemmatizer "review" None
           review_frame [PyStr "Running FAST!!"; PyNone; PyStr "walk"]).
  - reflexivity.
  - constructor; [right; by exists "Running FAST!!"|].
    constructor; [by left|].
    constructor; [right; by exists "walk"|].
    constructor.
Defined.
